(** * Run LLMs locally: the code cells of docs/docs/guides/local_llms.ipynb

    The notebook is a sequence of Python code cells whose statements import
    classes of the orchestration library, construct clients, call them and
    select a prompt.  This file embeds the cells as abstract syntax of the
    Python fragment they are written in, gives that fragment a big-step
    interpreter in which every interaction with the library is recorded in a
    trace and answered by an oracle, and proves the properties of the
    notebook over that interpreter. *)

From Stdlib Require Import String Ascii List ZArith Bool Arith Lia.
Import ListNotations.
Open Scope string_scope.
Open Scope list_scope.

(** Nested occurrences of [list] and [prod] in the syntax get their
    induction hypotheses from these schemes. *)
Scheme All for list.
Scheme All for prod.

(** ** Syntax *)

Module Py.

Inductive expr : Type :=
| EName (x : string)
| EStr (s : string)
| EInt (n : Z)
| EBool (b : bool)
| EList (es : list expr)
| ETuple (es : list expr)
| EDict (items : list (expr * expr))
| ELambda (params : list string) (body : expr)
| EAttr (obj : expr) (attr : string)
| ECall (func : expr) (args : list expr) (kwargs : list (string * expr)).

(** [def name(params): return result], as a method of a class statement. *)
Definition method : Type := (string * (list string * expr))%type.

Inductive stmt : Type :=
| SImportFrom (module name : string)
| SAssign (target : string) (value : expr)
| SExpr (value : expr)
| SMagic (line : string)
| SFunctionDef (name : string) (params : list string) (result : expr)
| SClassDef (name : string) (bases : list expr) (methods : list method)
| STry (body : list stmt) (handler : list stmt).

(** A statement without [try]: nothing in it catches an exception. *)
Definition handler_free (s : stmt) : bool :=
  match s with
  | STry _ _ => false
  | _ => true
  end.

(** A statement that defines a function or a class of the notebook's own. *)
Definition defines_logic (s : stmt) : bool :=
  match s with
  | SFunctionDef _ _ _ | SClassDef _ _ _ => true
  | _ => false
  end.

(** ** Values *)

Record PyClass : Type := {
  cls_module : string;
  cls_name : string;
  cls_ancestors : list (string * string);
  cls_methods : list method
}.

Inductive Value : Type :=
| VNone
| VStr (s : string)
| VInt (n : Z)
| VBool (b : bool)
| VList (vs : list Value)
| VTuple (vs : list Value)
| VDict (items : list (Value * Value))
| VClass (c : PyClass)
| VObj (c : PyClass) (args : list Value) (kwargs : list (string * Value))
| VFunction (closure : list (string * Value)) (params : list string) (body : expr)
| VMethod (self : Value) (name : string)
| VBuiltin (name : string).

Definition Env : Type := list (string * Value).

Fixpoint lookup {A : Type} (x : string) (env : list (string * A)) : option A :=
  match env with
  | [] => None
  | (y, v) :: rest => if y =? x then Some v else lookup x rest
  end.

Fixpoint update {A : Type} (x : string) (v : A) (env : list (string * A))
  : list (string * A) :=
  match env with
  | [] => [(x, v)]
  | (y, w) :: rest => if y =? x then (x, v) :: rest else (y, w) :: update x v rest
  end.

(** ** Classes and [isinstance] *)

Definition class_id (c : PyClass) : string * string := (cls_module c, cls_name c).

Definition same_id (a b : string * string) : bool :=
  (fst a =? fst b) && (snd a =? snd b).

Definition builtin_class (name : string) : PyClass :=
  {| cls_module := "builtins"; cls_name := name;
     cls_ancestors := [("builtins", "object")]; cls_methods := [] |}.

Definition type_of (v : Value) : PyClass :=
  match v with
  | VNone => builtin_class "NoneType"
  | VStr _ => builtin_class "str"
  | VInt _ => builtin_class "int"
  | VBool _ =>
      {| cls_module := "builtins"; cls_name := "bool";
         cls_ancestors := [("builtins", "int"); ("builtins", "object")];
         cls_methods := [] |}
  | VList _ => builtin_class "list"
  | VTuple _ => builtin_class "tuple"
  | VDict _ => builtin_class "dict"
  | VClass _ => builtin_class "type"
  | VObj c _ _ => c
  | VFunction _ _ _ => builtin_class "function"
  | VMethod _ _ => builtin_class "method"
  | VBuiltin _ => builtin_class "builtin_function_or_method"
  end.

Definition issubclass (c d : PyClass) : bool :=
  same_id (class_id c) (class_id d) || existsb (same_id (class_id d)) (cls_ancestors c).

Definition isinstance (v : Value) (c : PyClass) : bool := issubclass (type_of v) c.

Definition truthy (v : Value) : bool :=
  match v with
  | VNone => false
  | VStr s => negb (s =? "")
  | VInt n => negb (Z.eqb n 0)
  | VBool b => b
  | VList vs | VTuple vs => negb (Nat.eqb (length vs) 0)
  | VDict items => negb (Nat.eqb (length items) 0)
  | _ => true
  end.

(** ** Exceptions, library operations and the library as an oracle *)

Inductive Exn : Type :=
| NameError (x : string)
| TypeError (msg : string)
| AttributeError (attr : string)
| RecursionError
| LibraryError (payload : string).

(** What the notebook asks of the external library (and of the shell). *)
Inductive ExtOp : Type :=
| OpImport (module name : string)
| OpConstruct (c : PyClass) (args : list Value) (kwargs : list (string * Value))
| OpCall (obj : Value) (args : list Value) (kwargs : list (string * Value))
| OpMethod (obj : Value) (name : string) (args : list Value)
    (kwargs : list (string * Value))
| OpMagic (line : string).

(** The library is a parameter: its class hierarchy, whether its [n]-th
    operation raises (and with what), what that operation returns, and the
    address an Ollama client uses when none is given to its constructor. *)
Record Library : Type := {
  lib_ancestors : string -> string -> list (string * string);
  lib_fails : nat -> ExtOp -> option string;
  lib_returns : nat -> ExtOp -> Value;
  lib_ollama_base_url : string
}.

Inductive Outcome (A : Type) : Type :=
| Ok (a : A)
| Raise (e : Exn).
Arguments Ok {A} a.
Arguments Raise {A} e.

(** Computations that may raise and that extend the trace of operations. *)
Definition M (A : Type) : Type := list ExtOp -> Outcome A * list ExtOp.

Definition ret {A : Type} (a : A) : M A := fun tr => (Ok a, tr).

Definition raise {A : Type} (e : Exn) : M A := fun tr => (Raise e, tr).

Definition bind {A B : Type} (m : M A) (f : A -> M B) : M B :=
  fun tr =>
    match m tr with
    | (Ok a, tr') => f a tr'
    | (Raise e, tr') => (Raise e, tr')
    end.

Notation "x <- m ;; k" := (bind m (fun x => k))
  (at level 100, m at next level, right associativity).

Definition perform (L : Library) (op : ExtOp) : M Value :=
  fun tr =>
    match lib_fails L (length tr) op with
    | Some payload => (Raise (LibraryError payload), tr ++ [op])
    | None => (Ok (lib_returns L (length tr) op), tr ++ [op])
    end.

Definition imported (L : Library) (module name : string) : PyClass :=
  {| cls_module := module; cls_name := name;
     cls_ancestors := lib_ancestors L module name; cls_methods := [] |}.

(** ** Expressions

    Name resolution is Python's: the local scope of the enclosing function,
    then the globals of the notebook, then the builtins. *)

Definition resolve (globals locals : Env) (x : string) : M Value :=
  match lookup x locals with
  | Some v => ret v
  | None =>
      match lookup x globals with
      | Some v => ret v
      | None => if x =? "isinstance" then ret (VBuiltin x) else raise (NameError x)
      end
  end.

(** [obj.attr]: a field given to the constructor, or the bound method. *)
Definition getattr (v : Value) (attr : string) : Value :=
  match v with
  | VObj _ _ kwargs =>
      match lookup attr kwargs with
      | Some field => field
      | None => VMethod v attr
      end
  | _ => VMethod v attr
  end.

(** Evaluation of a sequence of expressions, left to right. *)
Definition eval_all (ev : expr -> M Value) : list expr -> M (list Value) :=
  fix go (es : list expr) : M (list Value) :=
    match es with
    | [] => ret []
    | e :: rest => v <- ev e ;; vs <- go rest ;; ret (v :: vs)
    end.

Definition eval_items (ev : expr -> M Value)
  : list (expr * expr) -> M (list (Value * Value)) :=
  fix go (items : list (expr * expr)) : M (list (Value * Value)) :=
    match items with
    | [] => ret []
    | (k, v) :: rest =>
        kv <- ev k ;; vv <- ev v ;; kvs <- go rest ;; ret ((kv, vv) :: kvs)
    end.

Definition eval_kwargs (ev : expr -> M Value)
  : list (string * expr) -> M (list (string * Value)) :=
  fix go (kwargs : list (string * expr)) : M (list (string * Value)) :=
    match kwargs with
    | [] => ret []
    | (k, v) :: rest => vv <- ev v ;; kvs <- go rest ;; ret ((k, vv) :: kvs)
    end.

Section Eval.

Variable apply : Value -> list Value -> list (string * Value) -> M Value.
Variable globals : Env.

(** A call evaluates the callee, then the positional arguments, then the
    keyword arguments, and then calls. *)
Fixpoint eval_with (locals : Env) (e : expr) {struct e} : M Value :=
  match e with
  | EName x => resolve globals locals x
  | EStr s => ret (VStr s)
  | EInt n => ret (VInt n)
  | EBool b => ret (VBool b)
  | EList es => vs <- eval_all (eval_with locals) es ;; ret (VList vs)
  | ETuple es => vs <- eval_all (eval_with locals) es ;; ret (VTuple vs)
  | EDict items => kvs <- eval_items (eval_with locals) items ;; ret (VDict kvs)
  | ELambda params body => ret (VFunction locals params body)
  | EAttr obj attr => v <- eval_with locals obj ;; ret (getattr v attr)
  | ECall func args kwargs =>
      f <- eval_with locals func ;;
      avs <- eval_all (eval_with locals) args ;;
      kvs <- eval_kwargs (eval_with locals) kwargs ;;
      apply f avs kvs
  end.

End Eval.

(** ** Calls *)

Definition main_module : string := "__main__".

Definition defined_in_notebook (c : PyClass) : bool := cls_module c =? main_module.

Definition prompt_selector : string * string :=
  ("langchain.chains.prompt_selector", "ConditionalPromptSelector").

(** Modelled from the spec: the prompt-selection utility, class
    [ConditionalPromptSelector] of the library, whose code is not part of the
    notebook.  It chooses between the static templates it was built with by
    testing the client: [conditionals] is walked in order, the template of the
    first pair whose condition holds of the client is returned, and
    [default_prompt] when none holds. *)
Fixpoint select_prompt (ap : Value -> list Value -> list (string * Value) -> M Value)
    (conditionals : list Value) (llm default : Value) : M Value :=
  match conditionals with
  | [] => ret default
  | VTuple [condition; prompt] :: rest =>
      holds <- ap condition [llm] [] ;;
      if truthy holds then ret prompt else select_prompt ap rest llm default
  | _ :: _ => raise (TypeError "cannot unpack conditional")
  end.

(** Modelled from the spec: the method [get_prompt] of that class, over the
    fields the selector was constructed with; [conditionals] defaults to the
    empty list. *)
Definition get_prompt (ap : Value -> list Value -> list (string * Value) -> M Value)
    (selector llm : Value) : M Value :=
  match selector with
  | VObj _ _ fields =>
      match lookup "default_prompt" fields with
      | None => raise (AttributeError "default_prompt")
      | Some default =>
          match lookup "conditionals" fields with
          | None => ret default
          | Some (VList conditionals) => select_prompt ap conditionals llm default
          | Some _ => raise (TypeError "conditionals is not a list")
          end
      end
  | _ => raise (AttributeError "default_prompt")
  end.

Section Apply.

Variable L : Library.

(** Calling a function of the notebook binds its parameters over the scope
    it was created in and evaluates its body. *)
Definition call_function (ev : Env -> expr -> M Value) (closure : Env)
    (params : list string) (body : expr) (args : list Value) : M Value :=
  if Nat.eqb (length params) (length args)
  then ev (combine params args ++ closure) body
  else raise (TypeError "wrong number of arguments").

(** The call [f(args, kwargs)].  [ev] evaluates the body of a function of the
    notebook and [ap] is the call the library makes back into the notebook;
    everything else the library does is a [perform]. *)
Definition apply_with (ev : Env -> expr -> M Value)
    (ap : Value -> list Value -> list (string * Value) -> M Value)
    (f : Value) (args : list Value) (kwargs : list (string * Value)) : M Value :=
  match f with
  | VBuiltin name =>
      if name =? "isinstance" then
        match args, kwargs with
        | [v; VClass c], [] => ret (VBool (isinstance v c))
        | _, _ => raise (TypeError "isinstance expected an object and a class")
        end
      else raise (NameError name)
  | VFunction closure params body =>
      match kwargs with
      | [] => call_function ev closure params body args
      | _ :: _ => raise (TypeError "unexpected keyword argument")
      end
  | VClass c =>
      if defined_in_notebook c then ret (VObj c args kwargs)
      else _ <- perform L (OpConstruct c args kwargs) ;; ret (VObj c args kwargs)
  | VMethod self name =>
      match lookup name (cls_methods (type_of self)) with
      | Some (params, body) =>
          match kwargs with
          | [] => call_function ev [] params body (self :: args)
          | _ :: _ => raise (TypeError "unexpected keyword argument")
          end
      | None =>
          if defined_in_notebook (type_of self) then raise (AttributeError name)
          else if same_id (class_id (type_of self)) prompt_selector && (name =? "get_prompt")
          then
            match args, kwargs with
            | [llm], [] => get_prompt ap self llm
            | _, _ => raise (TypeError "get_prompt takes one argument")
            end
          else perform L (OpMethod self name args kwargs)
      end
  | VObj c _ _ =>
      match lookup "__call__" (cls_methods c) with
      | Some (params, body) =>
          match kwargs with
          | [] => call_function ev [] params body (f :: args)
          | _ :: _ => raise (TypeError "unexpected keyword argument")
          end
      | None =>
          if defined_in_notebook c then raise (TypeError "object is not callable")
          else perform L (OpCall f args kwargs)
      end
  | _ => raise (TypeError "object is not callable")
  end.

(** Calls nest at most [d] deep, as under the interpreter's recursion limit. *)
Fixpoint apply_at (d : nat) (globals : Env) (f : Value) (args : list Value)
    (kwargs : list (string * Value)) {struct d} : M Value :=
  match d with
  | O => raise RecursionError
  | S d' =>
      apply_with (eval_with (apply_at d' globals) globals) (apply_at d' globals)
        f args kwargs
  end.

Definition recursion_limit : nat := 1000.

Definition eval (globals locals : Env) (e : expr) : M Value :=
  eval_with (apply_at recursion_limit globals) globals locals e.

(** ** Statements *)

Record State : Type := {
  st_globals : Env;
  st_trace : list ExtOp
}.

Definition initial : State := {| st_globals := []; st_trace := [] |}.

(** Run a computation at top level: it reads the globals and extends the
    trace; [k] says what to bind when it returns. *)
Definition top {A : Type} (m : M A) (k : A -> Env -> Env) (st : State)
  : Outcome unit * State :=
  match m (st_trace st) with
  | (Ok a, tr) => (Ok tt, {| st_globals := k a (st_globals st); st_trace := tr |})
  | (Raise e, tr) => (Raise e, {| st_globals := st_globals st; st_trace := tr |})
  end.

Fixpoint base_ancestors (bases : list Value) : option (list (string * string)) :=
  match bases with
  | [] => Some []
  | VClass b :: rest =>
      match base_ancestors rest with
      | Some l => Some (class_id b :: cls_ancestors b ++ l)
      | None => None
      end
  | _ :: _ => None
  end.

Definition class_of_statement (name : string) (bases : list Value)
    (methods : list method) : M PyClass :=
  match base_ancestors bases with
  | None => raise (TypeError "bases must be classes")
  | Some l =>
      ret {| cls_module := main_module; cls_name := name;
             cls_ancestors := match bases with [] => [("builtins", "object")] | _ => l end;
             cls_methods := methods |}
  end.

Fixpoint exec (s : stmt) (st : State) {struct s} : Outcome unit * State :=
  let fix block (b : list stmt) (st : State) {struct b} : Outcome unit * State :=
    match b with
    | [] => (Ok tt, st)
    | s1 :: rest =>
        match exec s1 st with
        | (Ok _, st') => block rest st'
        | (Raise e, st') => (Raise e, st')
        end
    end in
  match s with
  | SImportFrom module name =>
      top (perform L (OpImport module name))
        (fun _ => update name (VClass (imported L module name))) st
  | SAssign target value =>
      top (eval (st_globals st) [] value) (fun v => update target v) st
  | SExpr value =>
      top (eval (st_globals st) [] value) (fun _ g => g) st
  | SMagic line =>
      top (perform L (OpMagic line)) (fun _ g => g) st
  | SFunctionDef name params result =>
      (Ok tt, {| st_globals := update name (VFunction [] params result) (st_globals st);
                 st_trace := st_trace st |})
  | SClassDef name bases methods =>
      top (bs <- eval (st_globals st) [] (ETuple bases) ;;
           match bs with
           | VTuple vs => class_of_statement name vs methods
           | _ => raise (TypeError "bases must be classes")
           end)
        (fun c => update name (VClass c)) st
  | STry body handler =>
      match block body st with
      | (Ok _, st') => (Ok tt, st')
      | (Raise _, st') => block handler st'
      end
  end.

Fixpoint exec_block (b : list stmt) (st : State) {struct b} : Outcome unit * State :=
  match b with
  | [] => (Ok tt, st)
  | s1 :: rest =>
      match exec s1 st with
      | (Ok _, st') => exec_block rest st'
      | (Raise e, st') => (Raise e, st')
      end
  end.

End Apply.

End Py.

(** ** The notebook *)

Module Notebook.
Import Py.

Record Cell : Type := {
  cell_id : string;
  source : list stmt
}.

Definition LF : string := String "010"%char EmptyString.
Definition DQ : string := String "034"%char EmptyString.

Definition cat (parts : list string) : string := fold_right String.append "" parts.

Definition llama_cpp_weights : string :=
  "/Users/rlm/Desktop/Code/llama.cpp/models/openorca-platypus2-13b.gguf.q4_0.bin".

Definition gpt4all_weights : string :=
  "/Users/rlm/Desktop/Code/gpt4all/models/nous-hermes-13b.ggmlv3.q4_0.bin".

Definition moon : string := "The first man on the moon was ...".
Definition moon_think : string := "The first man on the moon was ... think step by step".
Definition moon_lets_think : string :=
  "The first man on the moon was ... Let's think step by step".
Definition bieber : string :=
  "What NFL team won the Super Bowl in the year that Justin Bieber was born?".

Definition streaming_manager : expr :=
  ECall (EName "CallbackManager")
    [EList [ECall (EName "StreamingStdOutCallbackHandler") [] []]] [].

Definition llama_cpp_client : expr :=
  ECall (EName "LlamaCpp") []
    [("model_path", EStr llama_cpp_weights);
     ("n_gpu_layers", EInt 1);
     ("n_batch", EInt 512);
     ("n_ctx", EInt 2048);
     ("f16_kv", EBool true);
     ("callback_manager", streaming_manager);
     ("verbose", EBool true)].

Definition cell_86178adb : Cell :=
  {| cell_id := "86178adb";
     source :=
       [SImportFrom "langchain.llms" "Ollama";
        SAssign "llm" (ECall (EName "Ollama") [] [("model", EStr "llama2")]);
        SExpr (ECall (EName "llm") [EStr moon] [])] |}.

Definition cell_9cd83603 : Cell :=
  {| cell_id := "9cd83603";
     source :=
       [SImportFrom "langchain.callbacks.manager" "CallbackManager";
        SImportFrom "langchain.callbacks.streaming_stdout" "StreamingStdOutCallbackHandler";
        SAssign "llm"
          (ECall (EName "Ollama") []
             [("model", EStr "llama2"); ("callback_manager", streaming_manager)]);
        SExpr (ECall (EName "llm") [EStr moon] [])] |}.

Definition cell_8ecd2f78 : Cell :=
  {| cell_id := "8ecd2f78";
     source :=
       [SImportFrom "langchain.llms" "Ollama";
        SAssign "llm" (ECall (EName "Ollama") [] [("model", EStr "llama2:13b")]);
        SExpr (ECall (EName "llm") [EStr moon_think] [])] |}.

Definition cell_5eba38dc : Cell :=
  {| cell_id := "5eba38dc";
     source :=
       [SMagic (cat ["%env CMAKE_ARGS="; DQ; "-DLLAMA_METAL=on"; DQ]);
        SMagic "%env FORCE_CMAKE=1";
        SMagic "%pip install -U llama-cpp-python --no-cache-dirclear`"] |}.

Definition cell_a88bf0c8 : Cell :=
  {| cell_id := "a88bf0c8-e989-4bcd-bcb7-4d7757e684f2";
     source :=
       [SImportFrom "langchain.callbacks.manager" "CallbackManager";
        SImportFrom "langchain.callbacks.streaming_stdout" "StreamingStdOutCallbackHandler";
        SImportFrom "langchain.llms" "LlamaCpp";
        SAssign "llm" llama_cpp_client] |}.

Definition cell_7890a077 : Cell :=
  {| cell_id := "7890a077";
     source :=
       [SExpr (ECall (EName "llm") [EStr moon_lets_think] [])] |}.

Definition cell_e27baf6e : Cell :=
  {| cell_id := "e27baf6e"; source := [SMagic "pip install gpt4all"] |}.

Definition cell_915ecd4c : Cell :=
  {| cell_id := "915ecd4c-8f6b-4de3-a787-b64cb7c682b4";
     source :=
       [SImportFrom "langchain.llms" "GPT4All";
        SAssign "llm"
          (ECall (EName "GPT4All") []
             [("model", EStr gpt4all_weights)])] |}.

Definition cell_e3d4526f : Cell :=
  {| cell_id := "e3d4526f";
     source :=
       [SExpr (ECall (EName "llm") [EStr moon_lets_think] [])] |}.

Definition cell_16759b7c : Cell :=
  {| cell_id := "16759b7c-7903-4269-b7b4-f83b313d8091";
     source := [SAssign "llm" llama_cpp_client] |}.

Definition llama_template : string :=
  cat ["<<SYS>> "; LF; " You are an assistant tasked with improving Google search ";
       "results. "; LF; " <</SYS>> "; LF; LF;
       " [INST] Generate THREE Google search queries that ";
       "are similar to this question. The output should be a numbered list of questions ";
       "and each should have a question mark at the end: "; LF; LF;
       " {question} [/INST]"].

Definition default_template : string :=
  cat ["You are an assistant tasked with improving Google search ";
       "results. Generate THREE Google search queries that are similar to ";
       "this question. The output should be a numbered list of questions and each ";
       "should have a question mark at the end: {question}"].

Definition select_for_llm : expr :=
  ECall (EAttr (EName "QUESTION_PROMPT_SELECTOR") "get_prompt") [EName "llm"] [].

Definition cell_8555f5bf : Cell :=
  {| cell_id := "8555f5bf";
     source :=
       [SImportFrom "langchain.chains" "LLMChain";
        SImportFrom "langchain.chains.prompt_selector" "ConditionalPromptSelector";
        SImportFrom "langchain.prompts" "PromptTemplate";
        SAssign "DEFAULT_LLAMA_SEARCH_PROMPT"
          (ECall (EName "PromptTemplate") []
             [("input_variables", EList [EStr "question"]);
              ("template", EStr llama_template)]);
        SAssign "DEFAULT_SEARCH_PROMPT"
          (ECall (EName "PromptTemplate") []
             [("input_variables", EList [EStr "question"]);
              ("template", EStr default_template)]);
        SAssign "QUESTION_PROMPT_SELECTOR"
          (ECall (EName "ConditionalPromptSelector") []
             [("default_prompt", EName "DEFAULT_SEARCH_PROMPT");
              ("conditionals",
               EList [ETuple [ELambda ["llm"]
                                (ECall (EName "isinstance")
                                   [EName "llm"; EName "LlamaCpp"] []);
                              EName "DEFAULT_LLAMA_SEARCH_PROMPT"]])]);
        SAssign "prompt" select_for_llm;
        SExpr (EName "prompt")] |}.

Definition cell_d0aedfd2 : Cell :=
  {| cell_id := "d0aedfd2";
     source :=
       [SAssign "llm_chain"
          (ECall (EName "LLMChain") [] [("prompt", EName "prompt"); ("llm", EName "llm")]);
        SAssign "question" (EStr bieber);
        SExpr (ECall (EAttr (EName "llm_chain") "run")
                 [EDict [(EStr "question", EName "question")]] [])] |}.

(** The code cells before the one that selects the prompt, in notebook order. *)
Definition setup_cells : list Cell :=
  [cell_86178adb; cell_9cd83603; cell_8ecd2f78; cell_5eba38dc; cell_a88bf0c8;
   cell_7890a077; cell_e27baf6e; cell_915ecd4c; cell_e3d4526f; cell_16759b7c].

Definition through_selection : list Cell := setup_cells ++ [cell_8555f5bf].

Definition notebook : list Cell := through_selection ++ [cell_d0aedfd2].

(** The field [name] an object was constructed with. *)
Definition field (name : string) (v : Value) : option Value :=
  match v with
  | VObj _ _ fields => lookup name fields
  | _ => None
  end.

Fixpoint contains (needle hay : string) : bool :=
  String.prefix needle hay ||
  match hay with
  | EmptyString => false
  | String _ rest => contains needle rest
  end.

Section Run.

Variable L : Library.

Definition run_cell (c : Cell) (st : State) : Outcome unit * State :=
  exec_block L (source c) st.

(** Run the cells in order; the run stops at the first cell that raises. *)
Fixpoint run_cells (cells : list Cell) (st : State) : Outcome unit * State :=
  match cells with
  | [] => (Ok tt, st)
  | c :: rest =>
      match run_cell c st with
      | (Ok _, st') => run_cells rest st'
      | (Raise e, st') => (Raise e, st')
      end
  end.

End Run.

(** A library none of whose operations raises. *)
Definition quiet (L : Library) : Library :=
  {| lib_ancestors := lib_ancestors L;
     lib_fails := fun _ _ => None;
     lib_returns := lib_returns L;
     lib_ollama_base_url := lib_ollama_base_url L |}.

(** *** The values and the operations of a run that completes *)

Section Completed.

Variable L : Library.

Definition Ollama : PyClass := imported L "langchain.llms" "Ollama".
Definition LlamaCpp : PyClass := imported L "langchain.llms" "LlamaCpp".
Definition GPT4All : PyClass := imported L "langchain.llms" "GPT4All".
Definition CallbackManager : PyClass :=
  imported L "langchain.callbacks.manager" "CallbackManager".
Definition StreamingStdOutCallbackHandler : PyClass :=
  imported L "langchain.callbacks.streaming_stdout" "StreamingStdOutCallbackHandler".
Definition LLMChain : PyClass := imported L "langchain.chains" "LLMChain".
Definition ConditionalPromptSelector : PyClass :=
  imported L "langchain.chains.prompt_selector" "ConditionalPromptSelector".
Definition PromptTemplate : PyClass := imported L "langchain.prompts" "PromptTemplate".

Definition handler : Value := VObj StreamingStdOutCallbackHandler [] [].
Definition manager : Value := VObj CallbackManager [VList [handler]] [].

Definition llama2_fields : list (string * Value) := [("model", VStr "llama2")].
Definition llama2_streaming_fields : list (string * Value) :=
  [("model", VStr "llama2"); ("callback_manager", manager)].
Definition llama2_13b_fields : list (string * Value) := [("model", VStr "llama2:13b")].
Definition llama_cpp_fields : list (string * Value) :=
  [("model_path", VStr llama_cpp_weights);
   ("n_gpu_layers", VInt 1);
   ("n_batch", VInt 512);
   ("n_ctx", VInt 2048);
   ("f16_kv", VBool true);
   ("callback_manager", manager);
   ("verbose", VBool true)].
Definition gpt4all_fields : list (string * Value) := [("model", VStr gpt4all_weights)].

Definition llama_cpp : Value := VObj LlamaCpp [] llama_cpp_fields.

Definition DEFAULT_LLAMA_SEARCH_PROMPT : Value :=
  VObj PromptTemplate []
    [("input_variables", VList [VStr "question"]); ("template", VStr llama_template)].

Definition DEFAULT_SEARCH_PROMPT : Value :=
  VObj PromptTemplate []
    [("input_variables", VList [VStr "question"]); ("template", VStr default_template)].

Definition is_llama_cpp : Value :=
  VFunction [] ["llm"] (ECall (EName "isinstance") [EName "llm"; EName "LlamaCpp"] []).

Definition selector_fields : list (string * Value) :=
  [("default_prompt", DEFAULT_SEARCH_PROMPT);
   ("conditionals", VList [VTuple [is_llama_cpp; DEFAULT_LLAMA_SEARCH_PROMPT]])].

Definition QUESTION_PROMPT_SELECTOR : Value :=
  VObj ConditionalPromptSelector [] selector_fields.

Definition chain_fields : list (string * Value) :=
  [("prompt", DEFAULT_LLAMA_SEARCH_PROMPT); ("llm", llama_cpp)].

Definition llm_chain : Value := VObj LLMChain [] chain_fields.

Definition streaming_operations : list ExtOp :=
  [OpConstruct StreamingStdOutCallbackHandler [] [];
   OpConstruct CallbackManager [VList [handler]] []].

(** The operations up to the definition of the selector. *)
Definition setup_operations : list ExtOp :=
  [OpImport "langchain.llms" "Ollama";
   OpConstruct Ollama [] llama2_fields;
   OpCall (VObj Ollama [] llama2_fields) [VStr moon] [];
   OpImport "langchain.callbacks.manager" "CallbackManager";
   OpImport "langchain.callbacks.streaming_stdout" "StreamingStdOutCallbackHandler"]
  ++ streaming_operations ++
  [OpConstruct Ollama [] llama2_streaming_fields;
   OpCall (VObj Ollama [] llama2_streaming_fields) [VStr moon] [];
   OpImport "langchain.llms" "Ollama";
   OpConstruct Ollama [] llama2_13b_fields;
   OpCall (VObj Ollama [] llama2_13b_fields) [VStr moon_think] [];
   OpMagic (cat ["%env CMAKE_ARGS="; DQ; "-DLLAMA_METAL=on"; DQ]);
   OpMagic "%env FORCE_CMAKE=1";
   OpMagic "%pip install -U llama-cpp-python --no-cache-dirclear`";
   OpImport "langchain.callbacks.manager" "CallbackManager";
   OpImport "langchain.callbacks.streaming_stdout" "StreamingStdOutCallbackHandler";
   OpImport "langchain.llms" "LlamaCpp"]
  ++ streaming_operations ++
  [OpConstruct LlamaCpp [] llama_cpp_fields;
   OpCall llama_cpp [VStr moon_lets_think] [];
   OpMagic "pip install gpt4all";
   OpImport "langchain.llms" "GPT4All";
   OpConstruct GPT4All [] gpt4all_fields;
   OpCall (VObj GPT4All [] gpt4all_fields) [VStr moon_lets_think] []]
  ++ streaming_operations ++
  [OpConstruct LlamaCpp [] llama_cpp_fields].

Definition selection_operations : list ExtOp :=
  [OpImport "langchain.chains" "LLMChain";
   OpImport "langchain.chains.prompt_selector" "ConditionalPromptSelector";
   OpImport "langchain.prompts" "PromptTemplate";
   OpConstruct PromptTemplate []
     [("input_variables", VList [VStr "question"]); ("template", VStr llama_template)];
   OpConstruct PromptTemplate []
     [("input_variables", VList [VStr "question"]); ("template", VStr default_template)];
   OpConstruct ConditionalPromptSelector [] selector_fields].

Definition chain_operations : list ExtOp :=
  [OpConstruct LLMChain [] chain_fields;
   OpMethod llm_chain "run" [VDict [(VStr "question", VStr bieber)]] []].

Definition complete_trace : list ExtOp :=
  setup_operations ++ selection_operations ++ chain_operations.

(** The bindings of the notebook after the cell that selects the prompt. *)
Definition selection_globals : Env :=
  [("Ollama", VClass Ollama);
   ("llm", llama_cpp);
   ("CallbackManager", VClass CallbackManager);
   ("StreamingStdOutCallbackHandler", VClass StreamingStdOutCallbackHandler);
   ("LlamaCpp", VClass LlamaCpp);
   ("GPT4All", VClass GPT4All);
   ("LLMChain", VClass LLMChain);
   ("ConditionalPromptSelector", VClass ConditionalPromptSelector);
   ("PromptTemplate", VClass PromptTemplate);
   ("DEFAULT_LLAMA_SEARCH_PROMPT", DEFAULT_LLAMA_SEARCH_PROMPT);
   ("DEFAULT_SEARCH_PROMPT", DEFAULT_SEARCH_PROMPT);
   ("QUESTION_PROMPT_SELECTOR", QUESTION_PROMPT_SELECTOR);
   ("prompt", DEFAULT_LLAMA_SEARCH_PROMPT)].

End Completed.

Definition cells_handler_free (cells : list Cell) : bool :=
  forallb (fun c => forallb handler_free (source c)) cells.

(** The library that raises [payload] at its [i]-th operation and nowhere else. *)
Definition failing_at (i : nat) (payload : string) (L : Library) : Library :=
  {| lib_ancestors := lib_ancestors L;
     lib_fails := fun n _ => if Nat.eqb n i then Some payload else None;
     lib_returns := lib_returns L;
     lib_ollama_base_url := lib_ollama_base_url L |}.

Definition plain_library : Library :=
  {| lib_ancestors := fun _ _ => [("builtins", "object")];
     lib_fails := fun _ _ => None;
     lib_returns := fun _ _ => VStr " Neil Armstrong";
     lib_ollama_base_url := "http://localhost:11434" |}.

End Notebook.

(** * The library's answers and what a run does with them *)

Module Oracle.
Import Py.

(** The answers the library gives to the operations [ops] when the first of
    them is its [base]-th operation: [Some payload] where it raises. *)
Fixpoint answers (L : Library) (base : nat) (ops : list ExtOp) : list (option string) :=
  match ops with
  | [] => []
  | op :: rest => lib_fails L base op :: answers L (S base) rest
  end.

(** [m2] only extends the trace; an operation on which the second library
    raised decides the outcome of [m2]; and [m1] does the same as [m2] when
    the first library answers the operations of [m2] as the second does. *)
Definition related (L1 L2 : Library) {A : Type} (m1 m2 : M A) : Prop :=
  forall tr, exists new,
    snd (m2 tr) = tr ++ new /\
    (forall x, In (Some x) (answers L2 (length tr) new) ->
               fst (m2 tr) = Raise (LibraryError x)) /\
    (answers L1 (length tr) new = answers L2 (length tr) new -> m1 tr = m2 tr).

(** The same, of statements, blocks and cells. *)
Definition relatedS (L1 L2 : Library) (r1 r2 : State -> Outcome unit * State) : Prop :=
  forall st, exists new,
    st_trace (snd (r2 st)) = st_trace st ++ new /\
    (forall x, In (Some x) (answers L2 (length (st_trace st)) new) ->
               fst (r2 st) = Raise (LibraryError x)) /\
    (answers L1 (length (st_trace st)) new = answers L2 (length (st_trace st)) new ->
     r1 st = r2 st).

End Oracle.

(** * The vocabulary of the properties *)

Module Properties.
Import Py Notebook.

Definition template_of (v : Value) : string :=
  match field "template" v with
  | Some (VStr t) => t
  | _ => ""
  end.

Definition has_llama_markers (v : Value) : bool :=
  contains "<<SYS>>" (template_of v) && contains "[INST]" (template_of v).


(** [QUESTION_PROMPT_SELECTOR.get_prompt(llm)] where [llm] is bound to [v]. *)
Definition selected (L : Library) (st : State) (v : Value) (tr : list ExtOp)
  : Outcome Value * list ExtOp :=
  eval L (update "llm" v (st_globals st)) [] select_for_llm tr.

Definition constructs (module name : string) (op : ExtOp) : bool :=
  match op with
  | OpConstruct c _ _ => same_id (class_id c) (module, name)
  | _ => false
  end.

Definition constructs_client (op : ExtOp) : bool :=
  constructs "langchain.llms" "Ollama" op ||
  constructs "langchain.llms" "LlamaCpp" op ||
  constructs "langchain.llms" "GPT4All" op.

(** The specification's wording: a LlamaCpp construction passes the weights
    path and the four fields and nothing else. *)
Definition path_and_four_fields (op : ExtOp) : Prop :=
  match op with
  | OpConstruct c args kwargs =>
      constructs "langchain.llms" "LlamaCpp" op = true ->
      args = [] /\
      exists path,
        kwargs = [("model_path", VStr path); ("n_gpu_layers", VInt 1);
                  ("n_batch", VInt 512); ("n_ctx", VInt 2048); ("f16_kv", VBool true)]
  | _ => True
  end.

(** What the constructors receive: the values written in the cells. *)
Definition client_arguments (L : Library) (op : ExtOp) : Prop :=
  match op with
  | OpConstruct c args kwargs =>
      (constructs "langchain.llms" "LlamaCpp" op = true ->
       args = [] /\ kwargs = llama_cpp_fields L) /\
      (constructs "langchain.llms" "GPT4All" op = true ->
       args = [] /\ kwargs = gpt4all_fields) /\
      (constructs "langchain.llms" "Ollama" op = true ->
       args = [] /\
       (kwargs = llama2_fields \/ kwargs = llama2_streaming_fields L \/
        kwargs = llama2_13b_fields))
  | _ => True
  end.

Definition is_client (v : Value) : bool :=
  match v with
  | VObj c _ _ =>
      same_id (class_id c) ("langchain.llms", "Ollama") ||
      same_id (class_id c) ("langchain.llms", "LlamaCpp") ||
      same_id (class_id c) ("langchain.llms", "GPT4All")
  | _ => false
  end.

Definition holds_client (v : Value) : bool :=
  match v with
  | VObj _ args kwargs =>
      existsb is_client args || existsb (fun kv => is_client (snd kv)) kwargs
  | _ => false
  end.

(** An operation on a client: a call of the client, of one of its methods,
    or of an object that was built around it. *)
Definition on_client (op : ExtOp) : bool :=
  match op with
  | OpCall obj _ _ | OpMethod obj _ _ _ => is_client obj || holds_client obj
  | _ => false
  end.

Definition string_prompt_call (op : ExtOp) : Prop :=
  exists client prompt, is_client client = true /\ op = OpCall client [VStr prompt] [].

Definition chain_run (L : Library) : ExtOp :=
  OpMethod (llm_chain L) "run" [VDict [(VStr "question", VStr bieber)]] [].

Definition registers_streaming_handler (L : Library) (op : ExtOp) : Prop :=
  match op with
  | OpConstruct c args kwargs =>
      constructs "langchain.callbacks.manager" "CallbackManager" op = true ->
      args = [VList [handler L]] /\ kwargs = []
  | _ => True
  end.

Definition defines_nothing (cells : list Cell) : bool :=
  forallb (fun c => forallb (fun s => negb (defines_logic s)) (source c)) cells.

(** Modelled from the spec: the address an Ollama client sends its prompts
    to.  The class is not part of the notebook; a client uses the address
    it was constructed with and, when it was given none, the one local
    address and port that the serving process listens on. *)
Definition ollama_endpoint (L : Library) (client : Value) : Value :=
  match field "base_url" client with
  | Some url => url
  | None => VStr (lib_ollama_base_url L)
  end.

Definition names_model_only (L : Library) (op : ExtOp) : Prop :=
  match op with
  | OpConstruct c args kwargs =>
      constructs "langchain.llms" "Ollama" op = true ->
      args = [] /\
      (lookup "model" kwargs = Some (VStr "llama2") \/
       lookup "model" kwargs = Some (VStr "llama2:13b")) /\
      lookup "base_url" kwargs = None /\
      lookup "host" kwargs = None /\
      lookup "port" kwargs = None /\
      ollama_endpoint L (VObj c args kwargs) = VStr (lib_ollama_base_url L)
  | _ => True
  end.

(** The keys of the dict [arg] are the input variables of [prompt]. *)
Definition accepts (prompt arg : Value) : Prop :=
  exists items,
    arg = VDict items /\ field "input_variables" prompt = Some (VList (map fst items)).

Definition run_argument : Value := VDict [(VStr "question", VStr bieber)].

(** *** The state of the objects

    A value stands for an object by its class and the arguments it was built
    with; what the object holds at a given time is the library's.  The cells
    have no statement that assigns to an attribute or to an item of an
    object, so an object changes only in an operation of the library, which
    may change any object: [effect n op] is what its [n]-th operation [op]
    does to the objects, and the objects at a state are what the operations
    of its trace made of them, in order. *)
Section Objects.

Variable Store : Type.
Variable effect : nat -> ExtOp -> Store -> Store.

Fixpoint objects_from (n : nat) (ops : list ExtOp) (s : Store) : Store :=
  match ops with
  | [] => s
  | op :: rest => objects_from (S n) rest (effect n op s)
  end.

Definition objects (s0 : Store) (st : State) : Store :=
  objects_from 0 (st_trace st) s0.

End Objects.

Arguments objects_from {Store} effect n ops s.
Arguments objects {Store} effect s0 st.

End Properties.

(** * Cells read as straight-line scripts *)

Module Scripts.
Import Py Notebook Oracle.

(** A class of the library: not one the notebook defines, and with no method
    whose body is notebook code. *)
Definition library_class (c : PyClass) : bool :=
  negb (defined_in_notebook c) &&
  match cls_methods c with [] => true | _ :: _ => false end.

(** The straight-line reading of a cell: the operations it asks of the
    library, in order, each with the bindings made once it has returned. *)
Definition Script : Type := list (ExtOp * (Env -> Env)).

(** What a script does from the bindings [g] and the trace [tr]: it stops at
    the first operation the library fails, with what the library raised and
    the bindings made so far; [final] is its outcome when no operation
    fails. *)
Fixpoint play (L : Library) (script : Script) (final : Outcome unit)
    (g : Env) (tr : list ExtOp) : Outcome unit * State :=
  match script with
  | [] => (final, {| st_globals := g; st_trace := tr |})
  | (op, k) :: rest =>
      match lib_fails L (length tr) op with
      | Some payload =>
          (Raise (LibraryError payload), {| st_globals := g; st_trace := tr ++ [op] |})
      | None => play L rest final (k g) (tr ++ [op])
      end
  end.

(** An operation after which nothing is bound. *)
Definition keep : Env -> Env := fun g => g.

(** [from module import name]. *)
Definition importing (L : Library) (module name : string) : ExtOp * (Env -> Env) :=
  (OpImport module name, update name (VClass (imported L module name))).

Definition streaming_imports (L : Library) : Script :=
  [importing L "langchain.callbacks.manager" "CallbackManager";
   importing L "langchain.callbacks.streaming_stdout" "StreamingStdOutCallbackHandler"].

Definition llama_imports (L : Library) : Script :=
  streaming_imports L ++ [importing L "langchain.llms" "LlamaCpp"].

(** The prompt-selection cell up to the definition of the selector. *)
Definition selection_script (L : Library) : Script :=
  [importing L "langchain.chains" "LLMChain";
   importing L "langchain.chains.prompt_selector" "ConditionalPromptSelector";
   importing L "langchain.prompts" "PromptTemplate";
   (OpConstruct (PromptTemplate L) []
      [("input_variables", VList [VStr "question"]); ("template", VStr llama_template)],
    update "DEFAULT_LLAMA_SEARCH_PROMPT" (DEFAULT_LLAMA_SEARCH_PROMPT L));
   (OpConstruct (PromptTemplate L) []
      [("input_variables", VList [VStr "question"]); ("template", VStr default_template)],
    update "DEFAULT_SEARCH_PROMPT" (DEFAULT_SEARCH_PROMPT L));
   (OpConstruct (ConditionalPromptSelector L) [] (selector_fields L),
    update "QUESTION_PROMPT_SELECTOR" (QUESTION_PROMPT_SELECTOR L))].

(** The first answer of the library that is a failure, and its position. *)
Fixpoint first_failure_at (l : list (option string)) : option (nat * string) :=
  match l with
  | [] => None
  | Some x :: _ => Some (0, x)
  | None :: rest =>
      match first_failure_at rest with
      | Some (i, x) => Some (S i, x)
      | None => None
      end
  end.

(** The run [r] from [st] performed the operations [ops] up to and including
    the first that the library failed, and raised what the library raised
    there; it performed them all and returned when the library failed none. *)
Definition performs (L : Library) (ops : list ExtOp) (st : State)
    (r : Outcome unit * State) : Prop :=
  match first_failure_at (answers L (length (st_trace st)) ops) with
  | None => fst r = Ok tt /\ st_trace (snd r) = st_trace st ++ ops
  | Some (i, x) =>
      fst r = Raise (LibraryError x) /\
      st_trace (snd r) = st_trace st ++ firstn (S i) ops
  end.

(** The bindings of the notebook when its last cell has returned. *)
Definition final_globals (L : Library) : Env :=
  selection_globals L ++ [("llm_chain", llm_chain L); ("question", VStr bieber)].

End Scripts.

(** Tactics that walk a list of operations and settle each by evaluation. *)
Module OperationTactics.
Import Py Notebook Properties.

Ltac decide_equalities :=
  lazymatch goal with
  | |- _ /\ _ => split; decide_equalities
  | |- _ \/ _ => first [left; decide_equalities | right; decide_equalities]
  | |- _ = _ => vm_compute; reflexivity
  end.

Ltac check_operation :=
  first
    [ exact I
    | hnf;
      repeat match goal with
             | |- _ /\ _ => split
             | |- _ = true -> _ =>
                 let X := fresh "X" in intros X; vm_compute in X; try discriminate X
             end;
      decide_equalities ].

Ltac each_operation :=
  repeat (apply Forall_cons; [check_operation|]); try apply Forall_nil.

Ltac check_call :=
  first
    [ exact I
    | let X := fresh "X" in
      intros X; vm_compute in X;
      first [ discriminate X
            | left; unfold string_prompt_call; do 2 eexists;
              split; [|reflexivity]; vm_compute; reflexivity
            | right; reflexivity ] ].

End OperationTactics.

(** * Two libraries that differ in where they raise *)

Module OracleFacts.
Import Py Oracle.

Lemma app_same_length {A : Type} (l1 l1' l2 l2' : list A) :
  length l1 = length l1' -> l1 ++ l2 = l1' ++ l2' -> l1 = l1' /\ l2 = l2'.
Proof.
  revert l1'. induction l1 as [|a l1 IH]; intros [|a' l1'] Hl H; simpl in *;
    try discriminate; [now split|].
  injection H as -> H. injection Hl as Hl.
  destruct (IH _ Hl H) as [-> ->]. now split.
Qed.

(** The induction hypotheses of the syntax, as [Forall]. *)
Lemma all_exprs (P : expr -> Prop) (es : list expr) :
  list_all expr P es -> Forall P es.
Proof. induction 1; constructor; auto. Qed.

Lemma all_items (P : expr -> Prop) (items : list (expr * expr)) :
  list_all (expr * expr) (prod_all expr P expr P) items ->
  Forall (fun kv => P (fst kv) /\ P (snd kv)) items.
Proof.
  induction 1 as [|kv Hkv rest _ IH]; constructor; auto.
  destruct Hkv; simpl; auto.
Qed.

Lemma all_kwargs (P : expr -> Prop) (kwargs : list (string * expr)) :
  list_all (string * expr) (prod_all string (fun _ => unit) expr P) kwargs ->
  Forall (fun kv => P (snd kv)) kwargs.
Proof.
  induction 1 as [|kv Hkv rest _ IH]; constructor; auto.
  destruct Hkv; simpl; auto.
Qed.

Lemma answers_length L base ops : length (answers L base ops) = length ops.
Proof.
  revert base. induction ops as [|op rest IH]; intros base; simpl; [reflexivity|].
  now rewrite IH.
Qed.

Lemma answers_app L base l1 l2 :
  answers L base (l1 ++ l2) = answers L base l1 ++ answers L (base + length l1) l2.
Proof.
  revert base. induction l1 as [|op rest IH]; intros base; simpl.
  - now rewrite Nat.add_0_r.
  - rewrite IH. now rewrite Nat.add_succ_r.
Qed.

Section Related.

Variables L1 L2 : Library.
Hypothesis same_ancestors : forall m n, lib_ancestors L1 m n = lib_ancestors L2 m n.
Hypothesis same_returns : forall n op, lib_returns L1 n op = lib_returns L2 n op.

Lemma related_ret {A : Type} (a : A) : related L1 L2 (ret a) (ret a).
Proof.
  intros tr. exists []. simpl. rewrite app_nil_r. repeat split; intros; tauto.
Qed.

Lemma related_raise {A : Type} (e : Exn) : related L1 L2 (@raise A e) (raise e).
Proof.
  intros tr. exists []. simpl. rewrite app_nil_r. repeat split; intros; tauto.
Qed.

Lemma related_perform (op : ExtOp) : related L1 L2 (perform L1 op) (perform L2 op).
Proof.
  intros tr. exists [op]. unfold perform. simpl. repeat split.
  - destruct (lib_fails L2 (length tr) op); reflexivity.
  - intros x [H|[]]. rewrite H. reflexivity.
  - intros H. injection H as H. rewrite H, same_returns. reflexivity.
Qed.

Lemma related_bind {A B : Type} (m1 m2 : M A) (f1 f2 : A -> M B) :
  related L1 L2 m1 m2 -> (forall a, related L1 L2 (f1 a) (f2 a)) ->
  related L1 L2 (bind m1 f1) (bind m2 f2).
Proof.
  intros Hm Hf tr. destruct (Hm tr) as (n1 & Ht & Hp & Ha).
  unfold bind. destruct (m2 tr) as [o t] eqn:E. simpl in Ht, Hp. subst t.
  destruct o as [a|e].
  - destruct (Hf a (tr ++ n1)) as (n2 & Ht2 & Hp2 & Ha2).
    rewrite length_app in Hp2, Ha2.
    exists (n1 ++ n2). rewrite !answers_app. repeat split.
    + rewrite Ht2. symmetry. apply app_assoc.
    + intros x Hin. apply in_app_or in Hin as [Hin|Hin].
      * specialize (Hp x Hin). discriminate Hp.
      * apply Hp2, Hin.
    + intros Heq. apply app_same_length in Heq as [H1 H2];
        [|now rewrite !answers_length].
      rewrite (Ha H1). apply Ha2, H2.
  - exists n1. simpl. repeat split.
    + intros x Hin. specialize (Hp x Hin). now injection Hp as ->.
    + intros Heq. now rewrite (Ha Heq).
Qed.

Create HintDb oracle.
#[local] Hint Resolve related_ret related_raise related_perform : oracle.

Lemma eval_all_related (ev1 ev2 : expr -> M Value) (es : list expr) :
  Forall (fun e => related L1 L2 (ev1 e) (ev2 e)) es ->
  related L1 L2 (eval_all ev1 es) (eval_all ev2 es).
Proof.
  induction 1 as [|e rest He _ IH]; simpl; auto with oracle.
  apply related_bind; [exact He|]. intros v.
  apply related_bind; [exact IH|]. auto with oracle.
Qed.

Lemma eval_items_related (ev1 ev2 : expr -> M Value) (items : list (expr * expr)) :
  Forall (fun kv => related L1 L2 (ev1 (fst kv)) (ev2 (fst kv)) /\
                    related L1 L2 (ev1 (snd kv)) (ev2 (snd kv))) items ->
  related L1 L2 (eval_items ev1 items) (eval_items ev2 items).
Proof.
  induction 1 as [|[k v] rest [Hk Hv] _ IH]; simpl; auto with oracle.
  apply related_bind; [exact Hk|]. intros kv.
  apply related_bind; [exact Hv|]. intros vv.
  apply related_bind; [exact IH|]. auto with oracle.
Qed.

Lemma eval_kwargs_related (ev1 ev2 : expr -> M Value) (kwargs : list (string * expr)) :
  Forall (fun kv => related L1 L2 (ev1 (snd kv)) (ev2 (snd kv))) kwargs ->
  related L1 L2 (eval_kwargs ev1 kwargs) (eval_kwargs ev2 kwargs).
Proof.
  induction 1 as [|[k v] rest Hv _ IH]; simpl; auto with oracle.
  apply related_bind; [exact Hv|]. intros vv.
  apply related_bind; [exact IH|]. auto with oracle.
Qed.

Lemma resolve_related (g locals : Env) (x : string) :
  related L1 L2 (resolve g locals x) (resolve g locals x).
Proof.
  unfold resolve. destruct (lookup x locals); auto with oracle.
  destruct (lookup x g); auto with oracle.
  destruct (x =? "isinstance"); auto with oracle.
Qed.

Section Expressions.

Variable g : Env.
Variables ap1 ap2 : Value -> list Value -> list (string * Value) -> M Value.
Hypothesis ap_related : forall f args kwargs, related L1 L2 (ap1 f args kwargs) (ap2 f args kwargs).

Lemma eval_with_related (e : expr) :
  forall locals, related L1 L2 (eval_with ap1 g locals e) (eval_with ap2 g locals e).
Proof.
  induction e as [x|s|n|b|es IH|es IH|items IH|params body IH|obj IH attr
                 |func IHf args IHa kwargs IHk];
    intros locals; simpl; auto with oracle.
  - apply resolve_related.
  - apply related_bind; [|auto with oracle].
    apply eval_all_related. apply all_exprs in IH.
    eapply Forall_impl; [|exact IH]. auto.
  - apply related_bind; [|auto with oracle].
    apply eval_all_related. apply all_exprs in IH.
    eapply Forall_impl; [|exact IH]. auto.
  - apply related_bind; [|auto with oracle].
    apply eval_items_related. apply all_items in IH.
    eapply Forall_impl; [|exact IH]. simpl. intros kv [Hk Hv]. auto.
  - apply related_bind; [|auto with oracle]. apply IH.
  - apply related_bind; [apply IHf|]. intros f.
    apply related_bind.
    { apply eval_all_related. apply all_exprs in IHa.
      eapply Forall_impl; [|exact IHa]. auto. }
    intros avs. apply related_bind; [|intros; apply ap_related].
    apply eval_kwargs_related. apply all_kwargs in IHk.
    eapply Forall_impl; [|exact IHk]. auto.
Qed.

End Expressions.

Ltac related_step :=
  match goal with
  | |- related _ _ (ret _) _ => apply related_ret
  | |- related _ _ (raise _) _ => apply related_raise
  | |- related _ _ (perform _ _) _ => apply related_perform
  | |- related _ _ (bind _ _) _ => apply related_bind; [|intros]
  | |- related _ _ (match ?x with _ => _ end) _ => destruct x
  end.

Section Calls.

Variables ev1 ev2 : Env -> expr -> M Value.
Variables ap1 ap2 : Value -> list Value -> list (string * Value) -> M Value.
Hypothesis ev_related : forall locals e, related L1 L2 (ev1 locals e) (ev2 locals e).
Hypothesis ap_related : forall f args kwargs, related L1 L2 (ap1 f args kwargs) (ap2 f args kwargs).

Lemma call_function_related closure params body args :
  related L1 L2 (call_function ev1 closure params body args)
          (call_function ev2 closure params body args).
Proof.
  unfold call_function. destruct (Nat.eqb _ _); [apply ev_related|apply related_raise].
Qed.

Lemma select_prompt_related conditionals llm default :
  related L1 L2 (select_prompt ap1 conditionals llm default)
          (select_prompt ap2 conditionals llm default).
Proof.
  induction conditionals as [|c rest IH]; simpl; [apply related_ret|].
  destruct c; try apply related_raise.
  destruct vs as [|condition [|prompt [|]]]; try apply related_raise.
  apply related_bind; [apply ap_related|]. intros holds.
  destruct (truthy holds); [apply related_ret|apply IH].
Qed.

Lemma get_prompt_related selector llm :
  related L1 L2 (get_prompt ap1 selector llm) (get_prompt ap2 selector llm).
Proof.
  unfold get_prompt. repeat related_step; apply select_prompt_related.
Qed.

Lemma apply_with_related f args kwargs :
  related L1 L2 (apply_with L1 ev1 ap1 f args kwargs) (apply_with L2 ev2 ap2 f args kwargs).
Proof.
  unfold apply_with.
  repeat first [ related_step | apply call_function_related | apply get_prompt_related ].
Qed.

End Calls.

Lemma apply_at_related (d : nat) (g : Env) :
  forall f args kwargs, related L1 L2 (apply_at L1 d g f args kwargs) (apply_at L2 d g f args kwargs).
Proof.
  induction d as [|d IH]; intros f args kwargs; simpl; [apply related_raise|].
  apply apply_with_related; [|exact IH].
  intros locals e. apply eval_with_related, IH.
Qed.

Lemma eval_related (g locals : Env) (e : expr) :
  related L1 L2 (eval L1 g locals e) (eval L2 g locals e).
Proof.
  unfold eval. apply eval_with_related. apply apply_at_related.
Qed.

(** *** Statements, blocks and cells *)

Lemma top_related {A : Type} (m1 m2 : Env -> M A) (k1 k2 : A -> Env -> Env) :
  (forall g, related L1 L2 (m1 g) (m2 g)) -> (forall a g, k1 a g = k2 a g) ->
  relatedS L1 L2 (fun st => top (m1 (st_globals st)) k1 st)
           (fun st => top (m2 (st_globals st)) k2 st).
Proof.
  intros Hm Hk st. destruct (Hm (st_globals st) (st_trace st)) as (new & Ht & Hp & Ha).
  exists new. unfold top.
  destruct (m2 (st_globals st) (st_trace st)) as [[a|e] t]; simpl in *;
    (split; [exact Ht|split]).
  - intros x Hin. specialize (Hp x Hin). discriminate Hp.
  - intros Heq. rewrite (Ha Heq), Hk. reflexivity.
  - intros x Hin. specialize (Hp x Hin). now injection Hp as ->.
  - intros Heq. rewrite (Ha Heq). reflexivity.
Qed.

Lemma imported_same module name : imported L1 module name = imported L2 module name.
Proof. unfold imported. now rewrite same_ancestors. Qed.

Lemma exec_related (s : stmt) :
  handler_free s = true -> relatedS L1 L2 (exec L1 s) (exec L2 s).
Proof.
  destruct s; simpl; intros Hs; try discriminate Hs.
  - apply (top_related (fun _ => perform L1 _) (fun _ => perform L2 _));
      [intros; apply related_perform|].
    intros _ g. now rewrite imported_same.
  - apply (top_related (fun g => eval L1 g [] value) (fun g => eval L2 g [] value));
      [intros; apply eval_related|reflexivity].
  - apply (top_related (fun g => eval L1 g [] value) (fun g => eval L2 g [] value));
      [intros; apply eval_related|reflexivity].
  - apply (top_related (fun _ => perform L1 _) (fun _ => perform L2 _));
      [intros; apply related_perform|reflexivity].
  - intros st. exists []. simpl. rewrite app_nil_r. repeat split; intros; tauto.
  - apply (top_related
             (fun g => bind (eval L1 g [] (ETuple bases)) _)
             (fun g => bind (eval L2 g [] (ETuple bases)) _)); [|reflexivity].
    intros g. apply related_bind; [apply eval_related|]. intros bs.
    unfold class_of_statement. repeat related_step.
Qed.

Lemma relatedS_seq (ra1 ra2 rb1 rb2 : State -> Outcome unit * State) :
  relatedS L1 L2 ra1 ra2 -> relatedS L1 L2 rb1 rb2 ->
  relatedS L1 L2
    (fun st => match ra1 st with
               | (Ok _, st') => rb1 st'
               | (Raise e, st') => (Raise e, st')
               end)
    (fun st => match ra2 st with
               | (Ok _, st') => rb2 st'
               | (Raise e, st') => (Raise e, st')
               end).
Proof.
  intros Ha Hb st. destruct (Ha st) as (n1 & Ht & Hp & He).
  destruct (ra2 st) as [[u|e] st1] eqn:E; simpl in Ht, Hp.
  - destruct (Hb st1) as (n2 & Ht2 & Hp2 & He2).
    rewrite Ht, length_app in Hp2, He2.
    exists (n1 ++ n2). rewrite !answers_app. repeat split.
    + rewrite Ht2, Ht. symmetry. apply app_assoc.
    + intros x Hin. apply in_app_or in Hin as [Hin|Hin].
      * specialize (Hp x Hin). discriminate Hp.
      * apply Hp2, Hin.
    + intros Heq. apply app_same_length in Heq as [H1 H2];
        [|now rewrite !answers_length].
      rewrite (He H1). apply He2, H2.
  - exists n1. simpl. repeat split; auto. intros Heq. now rewrite (He Heq).
Qed.

Lemma relatedS_skip : relatedS L1 L2 (fun st => (Ok tt, st)) (fun st => (Ok tt, st)).
Proof.
  intros st. exists []. simpl. rewrite app_nil_r. repeat split; intros; tauto.
Qed.

Lemma exec_block_related (b : list stmt) :
  forallb handler_free b = true -> relatedS L1 L2 (exec_block L1 b) (exec_block L2 b).
Proof.
  induction b as [|s rest IH]; simpl; intros Hb; [apply relatedS_skip|].
  apply andb_prop in Hb as [Hs Hrest].
  apply (relatedS_seq (exec L1 s) (exec L2 s)); [apply exec_related, Hs|apply IH, Hrest].
Qed.

End Related.

End OracleFacts.

(** * Runs of the notebook under an arbitrary library *)

Module Runs.
Import Py Notebook Oracle OracleFacts.

Section TwoLibraries.

Variables L1 L2 : Library.
Hypothesis same_ancestors : forall m n, lib_ancestors L1 m n = lib_ancestors L2 m n.
Hypothesis same_returns : forall n op, lib_returns L1 n op = lib_returns L2 n op.

Lemma run_cells_related (cells : list Cell) :
  cells_handler_free cells = true ->
  relatedS L1 L2 (run_cells L1 cells) (run_cells L2 cells).
Proof.
  induction cells as [|c rest IH]; simpl; intros H; [apply relatedS_skip|].
  apply andb_prop in H as [Hc Hrest].
  apply (relatedS_seq L1 L2 (run_cell L1 c) (run_cell L2 c));
    [apply exec_block_related; assumption|apply IH, Hrest].
Qed.

End TwoLibraries.

Lemma quiet_answers (L : Library) (base : nat) (ops : list ExtOp) :
  (forall x, ~ In (Some x) (answers L base ops)) ->
  answers (quiet L) base ops = answers L base ops.
Proof.
  revert base. induction ops as [|op rest IH]; intros base H; simpl in *; [reflexivity|].
  rewrite IH by (intros x Hx; apply (H x); now right).
  destruct (lib_fails L base op) as [x|]; [|reflexivity].
  exfalso. apply (H x). now left.
Qed.

(** A run that completes is the run under the library that never raises. *)
Lemma run_ok_quiet (L : Library) (cells : list Cell) (st st' : State) :
  cells_handler_free cells = true ->
  run_cells L cells st = (Ok tt, st') ->
  run_cells (quiet L) cells st = (Ok tt, st').
Proof.
  intros Hfree Hrun.
  destruct (run_cells_related (quiet L) L (fun _ _ => eq_refl) (fun _ _ => eq_refl)
              cells Hfree st) as (new & Ht & Hp & Ha).
  rewrite Hrun in *. apply Ha. apply quiet_answers.
  intros x Hin. specialize (Hp x Hin). discriminate Hp.
Qed.

Lemma first_failure (l : list (option string)) :
  (forall x, ~ In (Some x) l) \/
  exists i x rest, l = repeat None i ++ Some x :: rest.
Proof.
  induction l as [|[x|] l IH].
  - left. intros x [].
  - right. exists 0, x, l. reflexivity.
  - destruct IH as [IH|(i & x & rest & ->)].
    + left. intros x [H|H]; [discriminate H|exact (IH x H)].
    + right. exists (S i), x, rest. reflexivity.
Qed.

Lemma answers_firstn (L : Library) (k base : nat) (ops : list ExtOp) :
  answers L base (firstn k ops) = firstn k (answers L base ops).
Proof.
  revert k base. induction ops as [|op rest IH]; intros [|k] base; simpl; try reflexivity.
  now rewrite IH.
Qed.

Lemma failing_at_answers (i : nat) (x : string) (L : Library) (ops : list ExtOp) :
  forall base, base <= i -> base + length ops = S i ->
  answers (failing_at i x L) base ops = repeat None (length ops - 1) ++ [Some x].
Proof.
  induction ops as [|op rest IH]; intros base Hb H; [simpl in H; lia|].
  change (length (op :: rest)) with (S (length rest)) in *.
  change (answers (failing_at i x L) base (op :: rest))
    with ((if Nat.eqb base i then Some x else None)
            :: answers (failing_at i x L) (S base) rest).
  destruct rest as [|op' rest'].
  - simpl in *. replace (Nat.eqb base i) with true by (symmetry; apply Nat.eqb_eq; lia).
    reflexivity.
  - change (length (op' :: rest')) with (S (length rest')) in *.
    replace (Nat.eqb base i) with false by (symmetry; apply Nat.eqb_neq; lia).
    rewrite (IH (S base)) by lia.
    simpl. rewrite Nat.sub_0_r. reflexivity.
Qed.

Lemma firstn_first_failure (i : nat) (x : string) (rest : list (option string)) :
  firstn (S i) (repeat None i ++ Some x :: rest) = repeat None i ++ [Some x].
Proof.
  induction i as [|i IH]; [reflexivity|].
  change (firstn (S (S i)) (repeat None (S i) ++ Some x :: rest))
    with (@None string :: firstn (S i) (repeat None i ++ Some x :: rest)).
  now rewrite IH.
Qed.

(** Under any library a run from the initial state is the run under the
    library that never raises, or the run under the library that raises
    once, where the library first raised. *)
Lemma run_cases (L : Library) (cells : list Cell) :
  cells_handler_free cells = true ->
  let full := st_trace (snd (run_cells (quiet L) cells initial)) in
  (forall i x, i < length full ->
     st_trace (snd (run_cells (failing_at i x L) cells initial)) = firstn (S i) full) ->
  run_cells L cells initial = run_cells (quiet L) cells initial \/
  exists i x, i < length full /\
    run_cells L cells initial = run_cells (failing_at i x L) cells initial.
Proof.
  intros Hfree full Hfail.
  destruct (first_failure (answers L 0 full)) as [Hnone|(i & x & rest & Hsome)].
  - left.
    destruct (run_cells_related L (quiet L) (fun _ _ => eq_refl) (fun _ _ => eq_refl)
                cells Hfree initial) as (new & Ht & _ & Ha).
    simpl in Ht, Ha. fold full in Ht. subst new.
    apply Ha. symmetry. apply quiet_answers, Hnone.
  - assert (Hi : i < length full).
    { rewrite <- (answers_length L 0 full), Hsome, length_app, repeat_length. simpl. lia. }
    right. exists i, x. split; [exact Hi|].
    destruct (run_cells_related L (failing_at i x L)
                (fun _ _ => eq_refl) (fun _ _ => eq_refl)
                cells Hfree initial) as (new & Ht & _ & Ha).
    simpl in Ht, Ha. rewrite (Hfail i x Hi) in Ht. subst new.
    apply Ha. rewrite answers_firstn, Hsome, firstn_first_failure.
    rewrite failing_at_answers.
    + rewrite firstn_length_le by lia. simpl. now rewrite Nat.sub_0_r.
    + lia.
    + rewrite firstn_length_le by lia. reflexivity.
Qed.

Lemma notebook_handler_free : cells_handler_free notebook = true.
Proof. reflexivity. Qed.

Lemma quiet_trace (L : Library) :
  st_trace (snd (run_cells (quiet L) notebook initial)) = complete_trace L.
Proof. vm_compute. reflexivity. Qed.

Lemma failing_trace (L : Library) (i : nat) (x : string) :
  i < length (complete_trace L) ->
  st_trace (snd (run_cells (failing_at i x L) notebook initial))
  = firstn (S i) (complete_trace L).
Proof.
  intros H.
  do 37 (destruct i as [|i]; [vm_compute; reflexivity|]).
  simpl in H. lia.
Qed.

(** Whatever the library answers, the operations of a run are an initial
    segment of the operations of the run that completes. *)
Lemma trace_prefix (L : Library) :
  exists k, st_trace (snd (run_cells L notebook initial)) = firstn k (complete_trace L).
Proof.
  destruct (run_cases L notebook notebook_handler_free) as [H|(i & x & Hi & H)].
  - rewrite quiet_trace. apply failing_trace.
  - exists (length (complete_trace L)). rewrite H, quiet_trace. now rewrite firstn_all.
  - rewrite quiet_trace in Hi. exists (S i). rewrite H. now apply failing_trace.
Qed.

Lemma Forall_firstn {A : Type} (P : A -> Prop) (k : nat) (l : list A) :
  Forall P l -> Forall P (firstn k l).
Proof.
  revert k. induction l as [|a l IH]; intros [|k] H; simpl; auto.
  inversion H; subst. constructor; auto.
Qed.

Lemma trace_Forall (L : Library) (P : ExtOp -> Prop) :
  Forall P (complete_trace L) ->
  Forall P (st_trace (snd (run_cells L notebook initial))).
Proof.
  intros H. destruct (trace_prefix L) as [k ->]. now apply Forall_firstn.
Qed.

Lemma completed_trace (L : Library) (st : State) :
  run_cells L notebook initial = (Ok tt, st) -> st_trace st = complete_trace L.
Proof.
  intros H. apply run_ok_quiet in H; [|exact notebook_handler_free].
  rewrite <- quiet_trace, H. reflexivity.
Qed.

Lemma selected_state (L : Library) (st : State) :
  run_cells L through_selection initial = (Ok tt, st) ->
  st = {| st_globals := selection_globals L;
          st_trace := setup_operations L ++ selection_operations L |}.
Proof.
  intros H. apply run_ok_quiet in H; [|reflexivity].
  vm_compute in H. injection H as <-. reflexivity.
Qed.

Lemma setup_state (L : Library) (st : State) :
  run_cells L setup_cells initial = (Ok tt, st) ->
  lookup "llm" (st_globals st) = Some (llama_cpp L).
Proof.
  intros H. apply run_ok_quiet in H; [|reflexivity].
  vm_compute in H. injection H as <-. reflexivity.
Qed.

Lemma run_cells_app (L : Library) (a b : list Cell) (st : State) :
  run_cells L (a ++ b) st =
  match run_cells L a st with
  | (Ok _, st') => run_cells L b st'
  | (Raise e, st') => (Raise e, st')
  end.
Proof.
  revert st. induction a as [|c a IH]; intros st; simpl; [reflexivity|].
  destruct (run_cell L c st) as [[u|e] st']; [apply IH|reflexivity].
Qed.

Lemma plain_trace :
  st_trace (snd (run_cells plain_library notebook initial)) = complete_trace plain_library.
Proof. exact (quiet_trace plain_library). Qed.


(** The selector applied to an arbitrary object bound to [llm]. *)
Lemma select_for (L : Library) (v : Value) (tr : list ExtOp) :
  eval L (update "llm" v (selection_globals L)) [] select_for_llm tr =
  (Ok (if isinstance v (LlamaCpp L)
       then DEFAULT_LLAMA_SEARCH_PROMPT L
       else DEFAULT_SEARCH_PROMPT L), tr).
Proof.
  transitivity ((if isinstance v (LlamaCpp L)
                 then ret (DEFAULT_LLAMA_SEARCH_PROMPT L)
                 else ret (DEFAULT_SEARCH_PROMPT L)) tr).
  - vm_compute. reflexivity.
  - destruct (isinstance v (LlamaCpp L)); reflexivity.
Qed.

End Runs.

(** * Checks of the interpreter on statements the notebook does not use *)

Module Checks.
Import Py Notebook Properties.

(** A [try] statement swallows what the library raises: the hypothesis that
    a cell has none is what makes exceptions reach the top of the cell. *)
Example try_swallows_the_exception :
  exec_block (failing_at 0 "ConnectionError" plain_library)
    [STry [SMagic "pip install gpt4all"] []; SAssign "done" (EBool true)] initial
  = (Ok tt, {| st_globals := [("done", VBool true)];
               st_trace := [OpMagic "pip install gpt4all"] |}).
Proof. vm_compute. reflexivity. Qed.

(** A handler class written in a cell is a definition of the notebook's own,
    and constructing it asks nothing of the library. *)
Example own_handler_is_detected :
  let cell :=
    {| cell_id := "own";
       source := [SClassDef "PrintHandler" []
                    [("on_llm_new_token", (["self"; "token"], EName "token"))];
                  SAssign "h" (ECall (EName "PrintHandler") [] []);
                  SAssign "t" (ECall (EAttr (EName "h") "on_llm_new_token")
                                 [EStr "tok"] [])] |} in
  defines_nothing [cell] = false /\
  st_trace (snd (run_cells plain_library [cell] initial)) = [] /\
  lookup "t" (st_globals (snd (run_cells plain_library [cell] initial)))
  = Some (VStr "tok").
Proof. vm_compute. repeat split; reflexivity. Qed.

(** The selector reads the class [LlamaCpp] from the globals at the time of
    the call: a function of the notebook, called through a name, sees a name
    unbound as a NameError. *)
Example unbound_name_raises :
  fst (eval plain_library [] [] (ECall (ELambda ["x"] (EName "y")) [EInt 1] []) [])
  = Raise (NameError "y").
Proof. vm_compute. reflexivity. Qed.

(** An assignment to [prompt] whose value is computed by a method of the
    library may change the objects, the client and the selector among them:
    that they are as before is not a property of assignments as such. *)
Example library_method_may_change_objects :
  let before := {| st_globals := selection_globals plain_library; st_trace := [] |} in
  let by_method :=
    SAssign "prompt"
      (ECall (EAttr (EName "llm") "bind") [EName "QUESTION_PROMPT_SELECTOR"] []) in
  let count (n : nat) (op : ExtOp) (s : nat) := S s in
  fst (exec plain_library by_method before) = Ok tt /\
  lookup "llm" (st_globals (snd (exec plain_library by_method before)))
  = lookup "llm" (st_globals before) /\
  objects count 0 (snd (exec plain_library by_method before)) <> objects count 0 before.
Proof.
  vm_compute. split; [reflexivity|]. split; [reflexivity|]. intros H. discriminate H.
Qed.

End Checks.

(** * Properties of the notebook *)

Import Py Notebook Oracle Properties OperationTactics OracleFacts Runs.



(** C2: when the notebook has run through the prompt-selection cell, [llm] is
    the LlamaCpp instance bound by the cell before it (the last of the setup
    cells, whose one statement assigns [llm]), and [prompt] is
    DEFAULT_LLAMA_SEARCH_PROMPT, whose template contains the markers <<SYS>>
    and [INST]; it is not the default template. *)
Theorem notebook_selects_llama_prompt (L : Library) (st0 st : State) :
  run_cells L setup_cells initial = (Ok tt, st0) ->
  run_cell L cell_8555f5bf st0 = (Ok tt, st) ->
  last setup_cells cell_8555f5bf = cell_16759b7c /\
  source cell_16759b7c = [SAssign "llm" llama_cpp_client] /\
  lookup "llm" (st_globals st0) = Some (llama_cpp L) /\
  lookup "llm" (st_globals st) = Some (llama_cpp L) /\
  isinstance (llama_cpp L) (LlamaCpp L) = true /\
  lookup "prompt" (st_globals st) = Some (DEFAULT_LLAMA_SEARCH_PROMPT L) /\
  has_llama_markers (DEFAULT_LLAMA_SEARCH_PROMPT L) = true /\
  DEFAULT_LLAMA_SEARCH_PROMPT L <> DEFAULT_SEARCH_PROMPT L.
Proof.
  intros H0 H1.
  assert (H : run_cells L through_selection initial = (Ok tt, st)).
  { unfold through_selection. rewrite run_cells_app, H0. simpl. now rewrite H1. }
  apply setup_state in H0. apply selected_state in H. subst st.
  repeat split; try reflexivity; try assumption.
  intros E.
  assert (X : has_llama_markers (DEFAULT_LLAMA_SEARCH_PROMPT L)
              = has_llama_markers (DEFAULT_SEARCH_PROMPT L)) by now rewrite E.
  vm_compute in X. discriminate X.
Qed.

Lemma notebook_selects_llama_prompt_witness :
  run_cells plain_library setup_cells initial
  = (Ok tt, snd (run_cells plain_library setup_cells initial)) /\
  run_cell plain_library cell_8555f5bf (snd (run_cells plain_library setup_cells initial))
  = (Ok tt, snd (run_cells plain_library through_selection initial)) /\
  lookup "prompt" (st_globals (snd (run_cells plain_library through_selection initial)))
  = Some (DEFAULT_LLAMA_SEARCH_PROMPT plain_library).
Proof.
  assert (H0 : run_cells plain_library setup_cells initial
               = (Ok tt, snd (run_cells plain_library setup_cells initial)))
    by (vm_compute; reflexivity).
  assert (H1 : run_cell plain_library cell_8555f5bf
                 (snd (run_cells plain_library setup_cells initial))
               = (Ok tt, snd (run_cells plain_library through_selection initial)))
    by (vm_compute; reflexivity).
  split; [exact H0|]. split; [exact H1|].
  destruct (notebook_selects_llama_prompt plain_library _ _ H0 H1)
    as (_ & _ & _ & _ & _ & Hprompt & _).
  exact Hprompt.
Defined.

(** C3 (as amended): every client constructor receives, unchanged, the values
    written in its cell: LlamaCpp the weights path, n_gpu_layers=1,
    n_batch=512, n_ctx=2048, f16_kv=True and, besides these,
    callback_manager=CallbackManager([StreamingStdOutCallbackHandler()]) and
    verbose=True; GPT4All only the path of its model file. *)
Theorem client_constructions_verbatim (L : Library) :
  Forall (client_arguments L) (st_trace (snd (run_cells L notebook initial))) /\
  filter constructs_client (st_trace (snd (run_cells (quiet L) notebook initial))) =
    [OpConstruct (Ollama L) [] llama2_fields;
     OpConstruct (Ollama L) [] (llama2_streaming_fields L);
     OpConstruct (Ollama L) [] llama2_13b_fields;
     OpConstruct (LlamaCpp L) [] (llama_cpp_fields L);
     OpConstruct (GPT4All L) [] gpt4all_fields;
     OpConstruct (LlamaCpp L) [] (llama_cpp_fields L)] /\
  llama_cpp_fields L =
    [("model_path", VStr llama_cpp_weights); ("n_gpu_layers", VInt 1);
     ("n_batch", VInt 512); ("n_ctx", VInt 2048); ("f16_kv", VBool true);
     ("callback_manager", manager L); ("verbose", VBool true)] /\
  gpt4all_fields = [("model", VStr gpt4all_weights)].
Proof.
  split; [|split; [rewrite quiet_trace; vm_compute; reflexivity|split; reflexivity]].
  apply trace_Forall.
  unfold complete_trace, setup_operations, selection_operations, chain_operations,
    streaming_operations.
  simpl app. each_operation.
Qed.

(** C3 as worded fails: the LlamaCpp construction of cell a88bf0c8 passes
    seven keyword arguments, not the path and four fields only. *)
Lemma client_constructions_counterexample :
  exists op,
    In op (st_trace (snd (run_cells plain_library notebook initial))) /\
    op = OpConstruct (LlamaCpp plain_library) [] (llama_cpp_fields plain_library) /\
    ~ path_and_four_fields op.
Proof.
  exists (OpConstruct (LlamaCpp plain_library) [] (llama_cpp_fields plain_library)).
  split; [|split; [reflexivity|]].
  - rewrite plain_trace. unfold complete_trace, setup_operations. simpl app.
    do 20 right. left. reflexivity.
  - intros H. destruct (H eq_refl) as [_ [path Hp]]. discriminate Hp.
Qed.

(** C4 (as amended): every direct call of a client passes one positional
    argument, a string prompt, and nothing else; the one other operation on a
    client is llm_chain.run, on the chain built around the LlamaCpp client,
    which is passed the dict that maps "question" to the question. *)
Theorem client_calls_pass_a_string (L : Library) :
  Forall (fun op => on_client op = true -> string_prompt_call op \/ op = chain_run L)
    (st_trace (snd (run_cells L notebook initial))) /\
  filter on_client (st_trace (snd (run_cells (quiet L) notebook initial))) =
    [OpCall (VObj (Ollama L) [] llama2_fields) [VStr moon] [];
     OpCall (VObj (Ollama L) [] (llama2_streaming_fields L)) [VStr moon] [];
     OpCall (VObj (Ollama L) [] llama2_13b_fields) [VStr moon_think] [];
     OpCall (llama_cpp L) [VStr moon_lets_think] [];
     OpCall (VObj (GPT4All L) [] gpt4all_fields) [VStr moon_lets_think] [];
     chain_run L] /\
  holds_client (llm_chain L) = true.
Proof.
  split; [|split; [rewrite quiet_trace; vm_compute; reflexivity|reflexivity]].
  apply trace_Forall.
  unfold complete_trace, setup_operations, selection_operations, chain_operations,
    streaming_operations.
  simpl app.
  repeat (apply Forall_cons; [check_call|]). apply Forall_nil.
Qed.

(** C4 as worded fails: llm_chain.run is an operation on the LlamaCpp client
    that is not a call of the client with a string; its argument is a dict. *)
Lemma client_calls_counterexample :
  exists op,
    In op (st_trace (snd (run_cells plain_library notebook initial))) /\
    op = chain_run plain_library /\
    on_client op = true /\
    ~ string_prompt_call op.
Proof.
  exists (chain_run plain_library).
  split; [|split; [reflexivity|split; [reflexivity|]]].
  - rewrite plain_trace. unfold complete_trace. apply in_or_app. right.
    apply in_or_app. right. right. left. reflexivity.
  - intros (client & prompt & _ & H). discriminate H.
Qed.

(** C5: every callback manager is constructed over the list of one handler,
    an instance of StreamingStdOutCallbackHandler, a class the notebook
    imports from langchain.callbacks.streaming_stdout; no cell defines a
    function or a class. *)
Theorem managers_register_streaming_handler (L : Library) :
  Forall (registers_streaming_handler L) (st_trace (snd (run_cells L notebook initial))) /\
  filter (constructs "langchain.callbacks.manager" "CallbackManager")
    (st_trace (snd (run_cells (quiet L) notebook initial))) =
    [OpConstruct (CallbackManager L) [VList [handler L]] [];
     OpConstruct (CallbackManager L) [VList [handler L]] [];
     OpConstruct (CallbackManager L) [VList [handler L]] []] /\
  handler L =
    VObj (imported L "langchain.callbacks.streaming_stdout" "StreamingStdOutCallbackHandler")
      [] [] /\
  defined_in_notebook (type_of (handler L)) = false /\
  In (SImportFrom "langchain.callbacks.streaming_stdout" "StreamingStdOutCallbackHandler")
    (source cell_9cd83603) /\
  defines_nothing notebook = true.
Proof.
  split; [|split; [rewrite quiet_trace; vm_compute; reflexivity
                  |repeat split; try reflexivity; simpl; tauto]].
  apply trace_Forall.
  unfold complete_trace, setup_operations, selection_operations, chain_operations,
    streaming_operations.
  simpl app. each_operation.
Qed.

(** C6: every Ollama construction names its model by the string "llama2" or
    "llama2:13b" and passes no address, host or port, so the client it builds
    uses the library's one local address. *)
Theorem ollama_clients_named_by_model (L : Library) :
  Forall (names_model_only L) (st_trace (snd (run_cells L notebook initial))) /\
  filter (constructs "langchain.llms" "Ollama")
    (st_trace (snd (run_cells (quiet L) notebook initial))) =
    [OpConstruct (Ollama L) [] [("model", VStr "llama2")];
     OpConstruct (Ollama L) []
       [("model", VStr "llama2"); ("callback_manager", manager L)];
     OpConstruct (Ollama L) [] [("model", VStr "llama2:13b")]].
Proof.
  split; [|rewrite quiet_trace; vm_compute; reflexivity].
  apply trace_Forall.
  unfold complete_trace, setup_operations, selection_operations, chain_operations,
    streaming_operations.
  simpl app. each_operation.
Qed.

(** *** Exceptions *)

Lemma top_raise {A : Type} (m : M A) (k : A -> Env -> Env) (st st' : State) (e : Exn) :
  top m k st = (Raise e, st') -> st_globals st' = st_globals st.
Proof.
  unfold top. destruct (m (st_trace st)) as [[a|e'] tr]; intros H;
    inversion H; reflexivity.
Qed.

(** A statement that raises binds nothing. *)
Lemma exec_raise_globals (L : Library) (s : stmt) (st st' : State) (e : Exn) :
  handler_free s = true -> exec L s st = (Raise e, st') ->
  st_globals st' = st_globals st.
Proof.
  destruct s; simpl; intros Hs H; try discriminate Hs;
    try (eapply top_raise; eassumption).
  discriminate H.
Qed.

(** A block that raises ran a prefix of its statements and raised in the next. *)
Lemma block_raise (L : Library) (b : list stmt) (st st' : State) (e : Exn) :
  exec_block L b st = (Raise e, st') ->
  exists pre s post st1,
    b = pre ++ s :: post /\ exec_block L pre st = (Ok tt, st1) /\
    exec L s st1 = (Raise e, st').
Proof.
  revert st. induction b as [|s b IH]; simpl; intros st H; [discriminate H|].
  destruct (exec L s st) as [[[]|e1] st1] eqn:E.
  - destruct (IH _ H) as (pre & s' & post & st2 & -> & Hpre & Hs).
    exists (s :: pre), s', post, st2. simpl. rewrite E. auto.
  - injection H as <- <-. exists [], s, b, st. auto.
Qed.

(** C7: no cell contains a try statement.  Whatever the library raises
    during a cell is the outcome of the cell, with the payload it was raised
    with; the cell stops at the statement that raised, and that statement
    leaves the bindings as the statements before it in the cell made them. *)
Theorem exceptions_propagate (L : Library) (c : Cell) (st : State) :
  In c notebook ->
  forallb handler_free (source c) = true /\
  (exists new,
     st_trace (snd (run_cell L c st)) = st_trace st ++ new /\
     forall payload,
       In (Some payload) (answers L (length (st_trace st)) new) ->
       fst (run_cell L c st) = Raise (LibraryError payload)) /\
  (forall e st',
     run_cell L c st = (Raise e, st') ->
     exists pre s post st1,
       source c = pre ++ s :: post /\
       exec_block L pre st = (Ok tt, st1) /\
       exec L s st1 = (Raise e, st') /\
       st_globals st' = st_globals st1).
Proof.
  intros Hc.
  assert (Hfree : forallb handler_free (source c) = true).
  { pose proof notebook_handler_free as H. unfold cells_handler_free in H.
    rewrite forallb_forall in H. apply H, Hc. }
  split; [exact Hfree|split].
  - destruct (exec_block_related L L (fun _ _ => eq_refl) (fun _ _ => eq_refl)
                (source c) Hfree st) as (new & Ht & Hp & _).
    exists new. split; assumption.
  - intros e st' H. unfold run_cell in H.
    destruct (block_raise _ _ _ _ _ H) as (pre & s & post & st1 & Hsrc & Hpre & Hs).
    exists pre, s, post, st1. repeat split; try assumption.
    apply (exec_raise_globals L s st1 st' e); [|exact Hs].
    rewrite forallb_forall in Hfree. apply Hfree. rewrite Hsrc.
    apply in_or_app. right. now left.
Qed.

Lemma exceptions_propagate_witness :
  In cell_86178adb notebook /\
  fst (run_cell (failing_at 2 "ConnectionError" plain_library) cell_86178adb initial)
  = Raise (LibraryError "ConnectionError").
Proof.
  split; [left; reflexivity|].
  destruct (exceptions_propagate (failing_at 2 "ConnectionError" plain_library)
              cell_86178adb initial (or_introl eq_refl))
    as (_ & (new & Ht & Hp) & _).
  apply Hp.
  assert (E : new = st_trace (snd (run_cell (failing_at 2 "ConnectionError" plain_library)
                                     cell_86178adb initial))) by (symmetry; exact Ht).
  rewrite E. vm_compute. right. right. left. reflexivity.
Defined.

(** *** The selector on other clients *)



(** C9: both templates are built with input_variables=["question"], so the
    template the selector returns for any object has that one input
    variable, and the dict passed to llm_chain.run, whose one key is
    "question", fits it on either branch. *)
Theorem selected_prompt_takes_question (L : Library) (st : State) (v : Value)
    (tr : list ExtOp) :
  run_cells L through_selection initial = (Ok tt, st) ->
  field "input_variables" (DEFAULT_LLAMA_SEARCH_PROMPT L) = Some (VList [VStr "question"]) /\
  field "input_variables" (DEFAULT_SEARCH_PROMPT L) = Some (VList [VStr "question"]) /\
  In (OpMethod (llm_chain L) "run" [run_argument] [])
    (st_trace (snd (run_cells (quiet L) notebook initial))) /\
  exists prompt,
    selected L st v tr = (Ok prompt, tr) /\
    field "input_variables" prompt = Some (VList [VStr "question"]) /\
    accepts prompt run_argument.
Proof.
  intros H. apply selected_state in H. subst st. unfold selected. simpl st_globals.
  split; [reflexivity|]. split; [reflexivity|]. split.
  - rewrite quiet_trace. unfold complete_trace. apply in_or_app. right.
    apply in_or_app. right. right. left. reflexivity.
  - rewrite select_for.
    destruct (isinstance v (LlamaCpp L)); eexists; (split; [reflexivity|]);
      (split; [reflexivity|]); exists [(VStr "question", VStr bieber)];
      split; reflexivity.
Qed.

Lemma selected_prompt_takes_question_witness :
  run_cells plain_library through_selection initial
  = (Ok tt, snd (run_cells plain_library through_selection initial)) /\
  exists prompt,
    selected plain_library (snd (run_cells plain_library through_selection initial))
      (VStr "not a client") [] = (Ok prompt, []) /\
    field "input_variables" prompt = Some (VList [VStr "question"]) /\
    accepts prompt run_argument.
Proof.
  assert (H1 : run_cells plain_library through_selection initial
               = (Ok tt, snd (run_cells plain_library through_selection initial)))
    by (vm_compute; reflexivity).
  split; [exact H1|].
  exact (proj2 (proj2 (proj2
           (selected_prompt_takes_question plain_library _ (VStr "not a client") [] H1)))).
Defined.

(** *** Purity of the selector *)

Lemma lookup_update_ne {A : Type} (x y : string) (v : A) (env : list (string * A)) :
  x <> y -> lookup x (update y v env) = lookup x env.
Proof.
  intros Hxy. induction env as [|[z w] env IH]; simpl.
  - destruct (String.eqb_spec y x); [congruence|reflexivity].
  - destruct (String.eqb_spec z y) as [->|Hzy]; simpl.
    + destruct (String.eqb_spec y x); [congruence|reflexivity].
    + destruct (String.eqb_spec z x); [reflexivity|exact IH].
Qed.




(** * The cells, run from any state

    The theorems above follow the notebook from the initial state, in
    order.  A notebook is also run cell by cell, in any order and again;
    what follows takes a cell at an arbitrary state of the bindings and of
    the trace, under an arbitrary library. *)

Import Scripts.

(** ** One step of a statement, of an expression and of a call *)

Module Steps.

Lemma library_class_inv (c : PyClass) :
  library_class c = true -> defined_in_notebook c = false /\ cls_methods c = [].
Proof.
  unfold library_class. intros H. apply andb_prop in H as [H1 H2].
  apply Bool.negb_true_iff in H1. destruct (cls_methods c); [now split|discriminate H2].
Qed.

Section Equations.

Variable L : Library.

Lemma exec_expr_eq (e : expr) (st : State) :
  exec L (SExpr e) st = top (eval L (st_globals st) [] e) (fun _ g => g) st.
Proof. reflexivity. Qed.

Lemma exec_assign_eq (x : string) (e : expr) (st : State) :
  exec L (SAssign x e) st = top (eval L (st_globals st) [] e) (fun v => update x v) st.
Proof. reflexivity. Qed.

Lemma exec_import_eq (m x : string) (st : State) :
  exec L (SImportFrom m x) st =
  top (perform L (OpImport m x)) (fun _ => update x (VClass (imported L m x))) st.
Proof. reflexivity. Qed.

Lemma exec_magic_eq (line : string) (st : State) :
  exec L (SMagic line) st = top (perform L (OpMagic line)) (fun _ g => g) st.
Proof. reflexivity. Qed.

Lemma eval_call_eq (g loc : Env) (f : expr) (a : list expr) (k : list (string * expr)) :
  eval L g loc (ECall f a k) =
  bind (eval L g loc f) (fun fv =>
  bind (eval_all (eval L g loc) a) (fun avs =>
  bind (eval_kwargs (eval L g loc) k) (fun kvs =>
  apply_at L recursion_limit g fv avs kvs))).
Proof. reflexivity. Qed.

Lemma eval_name_eq (g loc : Env) (x : string) : eval L g loc (EName x) = resolve g loc x.
Proof. reflexivity. Qed.

Lemma eval_list_eq (g loc : Env) (es : list expr) :
  eval L g loc (EList es) = bind (eval_all (eval L g loc) es) (fun vs => ret (VList vs)).
Proof. reflexivity. Qed.

Lemma eval_tuple_eq (g loc : Env) (es : list expr) :
  eval L g loc (ETuple es) = bind (eval_all (eval L g loc) es) (fun vs => ret (VTuple vs)).
Proof. reflexivity. Qed.

Lemma eval_dict_eq (g loc : Env) (items : list (expr * expr)) :
  eval L g loc (EDict items)
  = bind (eval_items (eval L g loc) items) (fun kvs => ret (VDict kvs)).
Proof. reflexivity. Qed.

Lemma eval_attr_eq (g loc : Env) (obj : expr) (attr : string) :
  eval L g loc (EAttr obj attr) = bind (eval L g loc obj) (fun v => ret (getattr v attr)).
Proof. reflexivity. Qed.

Lemma apply_at_S (d : nat) (g : Env) (f : Value) (a : list Value)
    (k : list (string * Value)) :
  apply_at L (S d) g f a k =
  apply_with L (eval_with (apply_at L d g) g) (apply_at L d g) f a k.
Proof. reflexivity. Qed.

(** Calling a class of the library constructs. *)
Lemma apply_class (g : Env) (c : PyClass) (a : list Value) (k : list (string * Value)) :
  library_class c = true ->
  apply_at L recursion_limit g (VClass c) a k
  = bind (perform L (OpConstruct c a k)) (fun _ => ret (VObj c a k)).
Proof.
  intros H. apply library_class_inv in H as [H _].
  unfold recursion_limit. rewrite apply_at_S. unfold apply_with.
  now rewrite H.
Qed.

(** Calling an object of the library is the library's. *)
Lemma apply_object (g : Env) (c : PyClass) (a0 : list Value) (k0 : list (string * Value))
    (a : list Value) (k : list (string * Value)) :
  library_class c = true ->
  apply_at L recursion_limit g (VObj c a0 k0) a k = perform L (OpCall (VObj c a0 k0) a k).
Proof.
  intros H. apply library_class_inv in H as [H Hm].
  unfold recursion_limit. rewrite apply_at_S. unfold apply_with.
  now rewrite Hm, H.
Qed.

(** So is a method of such an object, [get_prompt] apart. *)
Lemma apply_library_method (g : Env) (c : PyClass) (a0 : list Value)
    (k0 : list (string * Value)) (name : string) (a : list Value)
    (k : list (string * Value)) :
  library_class c = true ->
  (name =? "get_prompt") = false ->
  apply_at L recursion_limit g (VMethod (VObj c a0 k0) name) a k
  = perform L (OpMethod (VObj c a0 k0) name a k).
Proof.
  intros H Hn. apply library_class_inv in H as [H Hm].
  unfold recursion_limit. rewrite apply_at_S. unfold apply_with.
  cbn [type_of]. now rewrite Hm, H, Hn, Bool.andb_false_r.
Qed.



Lemma perform_ok (op : ExtOp) (tr : list ExtOp) :
  lib_fails L (length tr) op = None ->
  perform L op tr = (Ok (lib_returns L (length tr) op), tr ++ [op]).
Proof. intros H. unfold perform. now rewrite H. Qed.

Lemma perform_fails (op : ExtOp) (tr : list ExtOp) (x : string) :
  lib_fails L (length tr) op = Some x ->
  perform L op tr = (Raise (LibraryError x), tr ++ [op]).
Proof. intros H. unfold perform. now rewrite H. Qed.

Lemma top_step {A : Type} (m : M A) (k : A -> Env -> Env) (st : State)
    (r1 : Outcome A * list ExtOp) (r : Outcome unit * State) :
  m (st_trace st) = r1 ->
  match r1 with
  | (Ok a, tr) => (Ok tt, {| st_globals := k a (st_globals st); st_trace := tr |})
  | (Raise e, tr) => (Raise e, {| st_globals := st_globals st; st_trace := tr |})
  end = r ->
  top m k st = r.
Proof. intros H Hr. unfold top. now rewrite H. Qed.

Lemma block_step (s : stmt) (rest : list stmt) (st : State)
    (r1 r : Outcome unit * State) :
  exec L s st = r1 ->
  match r1 with
  | (Ok _, st') => exec_block L rest st'
  | (Raise e, st') => (Raise e, st')
  end = r ->
  exec_block L (s :: rest) st = r.
Proof. intros H Hr. cbn [exec_block]. now rewrite H. Qed.

End Equations.

Lemma bind_step {A B : Type} (m : M A) (f : A -> M B) (tr : list ExtOp)
    (r1 : Outcome A * list ExtOp) (r : Outcome B * list ExtOp) :
  m tr = r1 ->
  match r1 with
  | (Ok a, tr') => f a tr'
  | (Raise e, tr') => (Raise e, tr')
  end = r ->
  bind m f tr = r.
Proof. intros H Hr. unfold bind. now rewrite H. Qed.

Lemma ret_eq {A : Type} (a : A) (tr : list ExtOp) : ret a tr = (Ok a, tr).
Proof. reflexivity. Qed.

Lemma resolve_bound (g : Env) (x : string) (v : Value) (tr : list ExtOp) :
  lookup x g = Some v -> resolve g [] x tr = (Ok v, tr).
Proof. intros H. unfold resolve. cbn [lookup]. now rewrite H. Qed.

Lemma resolve_unbound (g : Env) (x : string) (tr : list ExtOp) :
  lookup x g = None -> (x =? "isinstance") = false ->
  resolve g [] x tr = (Raise (NameError x), tr).
Proof. intros H Hx. unfold resolve. cbn [lookup]. now rewrite H, Hx. Qed.

Lemma lookup_update_eq {A : Type} (x : string) (v : A) (env : list (string * A)) :
  lookup x (update x v env) = Some v.
Proof.
  induction env as [|[z w] env IH]; simpl.
  - now rewrite String.eqb_refl.
  - destruct (String.eqb_spec z x) as [->|Hz]; simpl.
    + now rewrite String.eqb_refl.
    + destruct (String.eqb_spec z x); [congruence|exact IH].
Qed.

Lemma lookup_update_other {A : Type} (x y : string) (v : A) (env : list (string * A)) :
  (x =? y) = false -> lookup x (update y v env) = lookup x env.
Proof. intros H. apply lookup_update_ne. now apply String.eqb_neq. Qed.

Lemma first_failure_at_none (l : list (option string)) :
  first_failure_at l = None -> forall x, ~ In (Some x) l.
Proof.
  induction l as [|[y|] l IH]; simpl; intros H x; [tauto|discriminate H|].
  destruct (first_failure_at l) as [[i z]|]; [discriminate H|].
  intros [E|E]; [discriminate E|exact (IH eq_refl x E)].
Qed.

Lemma first_failure_at_some (l : list (option string)) (i : nat) (x : string) :
  first_failure_at l = Some (i, x) -> exists rest, l = repeat None i ++ Some x :: rest.
Proof.
  revert i. induction l as [|[y|] l IH]; simpl; intros i H; [discriminate H| |].
  - injection H as <- <-. now exists l.
  - destruct (first_failure_at l) as [[j z]|]; [|discriminate H].
    injection H as <- <-. destruct (IH j eq_refl) as [rest ->]. now exists rest.
Qed.

(** A run from the initial state is decided by the first failure among the
    library's answers to the operations of the run that completes. *)
Lemma run_by_first_failure (L : Library) (cells : list Cell) :
  cells_handler_free cells = true ->
  let full := st_trace (snd (run_cells (quiet L) cells initial)) in
  (forall i x, i < length full ->
     st_trace (snd (run_cells (failing_at i x L) cells initial)) = firstn (S i) full) ->
  match first_failure_at (answers L 0 full) with
  | None => run_cells L cells initial = run_cells (quiet L) cells initial
  | Some (i, x) =>
      i < length full /\
      run_cells L cells initial = run_cells (failing_at i x L) cells initial
  end.
Proof.
  intros Hfree full Hfail.
  destruct (first_failure_at (answers L 0 full)) as [[i x]|] eqn:E.
  - destruct (first_failure_at_some _ _ _ E) as [rest Hsome].
    assert (Hi : i < length full).
    { rewrite <- (answers_length L 0 full), Hsome, length_app, repeat_length. simpl. lia. }
    split; [exact Hi|].
    destruct (run_cells_related L (failing_at i x L)
                (fun _ _ => eq_refl) (fun _ _ => eq_refl)
                cells Hfree initial) as (new & Ht & _ & Ha).
    simpl in Ht, Ha. rewrite (Hfail i x Hi) in Ht. subst new.
    apply Ha. rewrite answers_firstn, Hsome, firstn_first_failure.
    rewrite failing_at_answers.
    + rewrite firstn_length_le by lia. simpl. now rewrite Nat.sub_0_r.
    + lia.
    + rewrite firstn_length_le by lia. reflexivity.
  - destruct (run_cells_related L (quiet L) (fun _ _ => eq_refl) (fun _ _ => eq_refl)
                cells Hfree initial) as (new & Ht & _ & Ha).
    simpl in Ht, Ha. fold full in Ht. subst new.
    apply Ha. symmetry. apply quiet_answers, first_failure_at_none, E.
Qed.

Lemma failing_outcome (L : Library) (i : nat) (x : string) :
  i < length (complete_trace L) ->
  fst (run_cells (failing_at i x L) notebook initial) = Raise (LibraryError x).
Proof.
  intros H.
  do 37 (destruct i as [|i]; [vm_compute; reflexivity|]).
  simpl in H. lia.
Qed.

Lemma quiet_run (L : Library) :
  run_cells (quiet L) notebook initial
  = (Ok tt, {| st_globals := final_globals L; st_trace := complete_trace L |}).
Proof. vm_compute. reflexivity. Qed.

End Steps.

(** ** Derivations: a cell is run statement by statement, an expression bind
    by bind, and the library is asked in the order of the script *)

Module CellTactics.
Import Steps.

(** Lookups through a stack of updates with distinct literal names. *)
Ltac look :=
  repeat (rewrite lookup_update_other by reflexivity);
  first [ apply lookup_update_eq | eassumption ].

Ltac ev :=
  lazymatch goal with
  | |- (_, _) = _ => reflexivity
  | |- bind _ _ _ = _ => eapply bind_step; [ev|cbv beta iota; ev]
  | |- ret _ _ = _ => apply ret_eq
  | |- eval _ _ _ (ECall _ _ _) _ = _ => rewrite eval_call_eq; ev
  | |- eval _ _ _ (EList _) _ = _ => rewrite eval_list_eq; ev
  | |- eval _ _ _ (ETuple _) _ = _ => rewrite eval_tuple_eq; ev
  | |- eval _ _ _ (EDict _) _ = _ => rewrite eval_dict_eq; ev
  | |- eval _ _ _ (EAttr _ _) _ = _ => rewrite eval_attr_eq; ev
  | |- eval _ _ _ (EName _) _ = _ =>
      rewrite eval_name_eq;
      first [ apply resolve_bound; look
            | apply resolve_unbound; [look|reflexivity] ]
  | |- eval _ _ _ (ELambda ?ps ?b) ?tr = _ => exact (eq_refl (Ok (VFunction [] ps b), tr))
  | |- eval _ _ _ (EStr ?s) ?tr = _ => exact (eq_refl (Ok (VStr s), tr))
  | |- eval _ _ _ (EInt ?n) ?tr = _ => exact (eq_refl (Ok (VInt n), tr))
  | |- eval _ _ _ (EBool ?b) ?tr = _ => exact (eq_refl (Ok (VBool b), tr))
  | |- eval_all _ _ _ = _ => cbn [eval_all]; ev
  | |- eval_kwargs _ _ _ = _ => cbn [eval_kwargs]; ev
  | |- eval_items _ _ _ = _ => cbn [eval_items]; ev
  | |- apply_at _ recursion_limit _ (VClass _) _ _ _ = _ =>
      rewrite apply_class by (first [assumption|reflexivity]); ev
  | |- apply_at _ recursion_limit _ (VObj _ _ _) _ _ _ = _ =>
      rewrite apply_object by (first [assumption|reflexivity]); ev
  | |- apply_at _ recursion_limit _ (VMethod _ _) _ _ _ = _ =>
      rewrite apply_library_method by (first [assumption|reflexivity]); ev
  | |- apply_at _ recursion_limit _ (getattr ?v ?a) _ _ _ = _ =>
      let r := eval cbv [getattr lookup String.eqb Ascii.eqb Bool.eqb] in (getattr v a) in
      change (getattr v a) with r; ev
  | |- perform _ _ _ = _ =>
      first [ apply perform_ok; first [eassumption|reflexivity]
            | eapply perform_fails; eassumption ]
  end.

Ltac run_stmt :=
  lazymatch goal with
  | |- exec _ (SExpr _) _ = _ => rewrite exec_expr_eq
  | |- exec _ (SAssign _ _) _ = _ => rewrite exec_assign_eq
  | |- exec _ (SImportFrom _ _) _ = _ => rewrite exec_import_eq
  | |- exec _ (SMagic _) _ = _ => rewrite exec_magic_eq
  end;
  eapply top_step; cbn [st_globals st_trace]; [ev|cbv beta iota; reflexivity].

Ltac run_block :=
  lazymatch goal with
  | |- (_, _) = _ => reflexivity
  | |- exec_block _ [] _ = _ => reflexivity
  | |- exec_block _ (_ :: _) _ = _ =>
      eapply block_step; [run_stmt|cbv beta iota; run_block]
  end.

(** Case analysis on the answers of the library, in the order of the script. *)
Ltac split_oracle :=
  cbn [play];
  lazymatch goal with
  | |- _ = match lib_fails ?L ?n ?op with _ => _ end =>
      destruct (lib_fails L n op) eqn:?; [|split_oracle]
  | |- _ => idtac
  end.

Ltac run_script := split_oracle; run_block.

End CellTactics.

Import Steps CellTactics.

(** ** The notebook in order *)

(** X1: run in order from the initial state, the notebook raises nothing of
    its own.  It performs the operations of the complete trace up to the
    first that the library fails and stops there with what the library
    raised; when the library fails none it returns, having performed them
    all, and its bindings are those of the selection cell with [llm_chain]
    and [question] added. *)
Theorem notebook_raises_only_what_the_library_raises (L : Library) :
  performs L (complete_trace L) initial (run_cells L notebook initial) /\
  (fst (run_cells L notebook initial) = Ok tt ->
   st_globals (snd (run_cells L notebook initial)) = final_globals L).
Proof.
  pose proof (run_by_first_failure L notebook notebook_handler_free) as H.
  cbv zeta in H. rewrite quiet_trace in H. specialize (H (failing_trace L)).
  unfold performs. cbn [initial st_trace length app].
  destruct (first_failure_at (answers L 0 (complete_trace L))) as [[i x]|].
  - destruct H as [Hi H]. rewrite H.
    split; [split; [now apply failing_outcome|now apply failing_trace]|].
    rewrite (failing_outcome L i x Hi). intros E. discriminate E.
  - rewrite H, quiet_run. split; [split|]; reflexivity.
Qed.

(** ** The Ollama cells *)

(** X2: cells 86178adb and 8ecd2f78 depend on no earlier cell.  From any
    state each imports Ollama, constructs the client with its model name and
    calls it with its prompt, in this order; [Ollama] is bound once the
    import has returned and [llm] once the constructor has, also when the
    call then raises. *)
Theorem ollama_cells_self_contained (L : Library) (st : State) :
  let client fields := VObj (Ollama L) [] fields in
  let script fields prompt :=
    [importing L "langchain.llms" "Ollama";
     (OpConstruct (Ollama L) [] fields, update "llm" (client fields));
     (OpCall (client fields) [VStr prompt] [], keep)] in
  run_cell L cell_86178adb st
  = play L (script llama2_fields moon) (Ok tt) (st_globals st) (st_trace st) /\
  run_cell L cell_8ecd2f78 st
  = play L (script llama2_13b_fields moon_think) (Ok tt) (st_globals st) (st_trace st).
Proof.
  destruct st as [g tr]. cbv zeta. cbn [st_globals st_trace].
  unfold run_cell, importing. cbn [source cell_86178adb cell_8ecd2f78].
  split; run_script.
Qed.

(** X3: cell 9cd83603 does not import Ollama.  Run where [Ollama] is not
    bound, it makes its two imports and raises NameError for [Ollama] before
    it has constructed a handler or a manager. *)
Theorem streaming_cell_needs_Ollama (L : Library) (st : State) :
  lookup "Ollama" (st_globals st) = None ->
  run_cell L cell_9cd83603 st
  = play L (streaming_imports L) (Raise (NameError "Ollama")) (st_globals st) (st_trace st).
Proof.
  destruct st as [g tr]. cbn [st_globals st_trace]. intros H.
  unfold run_cell, streaming_imports, importing. cbn [source cell_9cd83603].
  run_script.
Qed.

Lemma streaming_cell_needs_Ollama_witness :
  lookup "Ollama" (st_globals initial) = None /\
  run_cell plain_library cell_9cd83603 initial
  = play plain_library (streaming_imports plain_library) (Raise (NameError "Ollama"))
      (st_globals initial) (st_trace initial).
Proof.
  split; [reflexivity|].
  exact (streaming_cell_needs_Ollama plain_library initial eq_refl).
Defined.

(** X4: where [Ollama] is bound to a class of the library, cell 9cd83603
    constructs whatever that class is: after its imports it builds a new
    handler, a new manager over the list of that handler, the client with
    model="llama2" and that manager, binds [llm] to the client and calls it
    with the prompt. *)
Theorem streaming_cell_uses_bound_Ollama (L : Library) (st : State) (c : PyClass) :
  lookup "Ollama" (st_globals st) = Some (VClass c) ->
  library_class c = true ->
  let fields := [("model", VStr "llama2"); ("callback_manager", manager L)] in
  run_cell L cell_9cd83603 st
  = play L
      (streaming_imports L ++
       [(OpConstruct (StreamingStdOutCallbackHandler L) [] [], keep);
        (OpConstruct (CallbackManager L) [VList [handler L]] [], keep);
        (OpConstruct c [] fields, update "llm" (VObj c [] fields));
        (OpCall (VObj c [] fields) [VStr moon] [], keep)])
      (Ok tt) (st_globals st) (st_trace st).
Proof.
  destruct st as [g tr]. cbn [st_globals st_trace]. intros H Hc. cbv zeta.
  unfold run_cell, streaming_imports, importing. cbn [source cell_9cd83603 app].
  unfold streaming_manager.
  run_script.
Qed.

Lemma streaming_cell_uses_bound_Ollama_witness :
  let st := snd (run_cell plain_library cell_86178adb initial) in
  lookup "Ollama" (st_globals st) = Some (VClass (Ollama plain_library)) /\
  library_class (Ollama plain_library) = true /\
  st_trace (snd (run_cell plain_library cell_9cd83603 st))
  = st_trace st ++
    [OpImport "langchain.callbacks.manager" "CallbackManager";
     OpImport "langchain.callbacks.streaming_stdout" "StreamingStdOutCallbackHandler";
     OpConstruct (StreamingStdOutCallbackHandler plain_library) [] [];
     OpConstruct (CallbackManager plain_library) [VList [handler plain_library]] [];
     OpConstruct (Ollama plain_library) [] (llama2_streaming_fields plain_library);
     OpCall (VObj (Ollama plain_library) [] (llama2_streaming_fields plain_library))
       [VStr moon] []].
Proof.
  cbv zeta.
  assert (H1 : lookup "Ollama"
                 (st_globals (snd (run_cell plain_library cell_86178adb initial)))
               = Some (VClass (Ollama plain_library))) by (vm_compute; reflexivity).
  assert (H2 : library_class (Ollama plain_library) = true) by reflexivity.
  split; [exact H1|]. split; [exact H2|].
  rewrite (streaming_cell_uses_bound_Ollama plain_library _ _ H1 H2).
  vm_compute. reflexivity.
Defined.

(** ** The LlamaCpp and GPT4All cells *)

(** X6: cell a88bf0c8 depends on no earlier cell.  From any state it makes
    its three imports, builds the handler, the manager over it and the
    LlamaCpp client with the seven fields written in the cell, in this
    order, and binds [llm] once the client is built. *)
Theorem llama_cell_self_contained (L : Library) (st : State) :
  run_cell L cell_a88bf0c8 st
  = play L
      (llama_imports L ++
       [(OpConstruct (StreamingStdOutCallbackHandler L) [] [], keep);
        (OpConstruct (CallbackManager L) [VList [handler L]] [], keep);
        (OpConstruct (LlamaCpp L) [] (llama_cpp_fields L), update "llm" (llama_cpp L))])
      (Ok tt) (st_globals st) (st_trace st).
Proof.
  destruct st as [g tr]. cbn [st_globals st_trace].
  unfold run_cell, llama_imports, streaming_imports, importing.
  cbn [source cell_a88bf0c8 app]. unfold llama_cpp_client, streaming_manager.
  run_script.
Qed.

(** X7: cells 7890a077 and e3d4526f consist of one call of [llm].  Run where
    [llm] is not bound, each raises NameError and asks nothing of the
    library. *)
Theorem call_cells_need_llm (L : Library) (st : State) :
  lookup "llm" (st_globals st) = None ->
  run_cell L cell_7890a077 st = (Raise (NameError "llm"), st) /\
  run_cell L cell_e3d4526f st = (Raise (NameError "llm"), st).
Proof.
  intros H. destruct st as [g tr]. cbn [st_globals] in H.
  unfold run_cell. cbn [source cell_7890a077 cell_e3d4526f].
  split; run_block.
Qed.

Lemma call_cells_need_llm_witness :
  lookup "llm" (st_globals initial) = None /\
  run_cell plain_library cell_7890a077 initial = (Raise (NameError "llm"), initial).
Proof.
  split; [reflexivity|].
  exact (proj1 (call_cells_need_llm plain_library initial eq_refl)).
Defined.

(** X8: cells 7890a077 and e3d4526f call whatever object of the library is
    bound to [llm] when they run, with the one prompt, and bind nothing: the
    client they reach is decided by the cells run before, not by their
    place in the notebook. *)
Theorem call_cells_call_bound_client (L : Library) (st : State) (c : PyClass)
    (args : list Value) (kwargs : list (string * Value)) :
  lookup "llm" (st_globals st) = Some (VObj c args kwargs) ->
  library_class c = true ->
  let script := [(OpCall (VObj c args kwargs) [VStr moon_lets_think] [], keep)] in
  run_cell L cell_7890a077 st = play L script (Ok tt) (st_globals st) (st_trace st) /\
  run_cell L cell_e3d4526f st = play L script (Ok tt) (st_globals st) (st_trace st).
Proof.
  destruct st as [g tr]. cbn [st_globals st_trace]. intros H Hc. cbv zeta.
  unfold run_cell. cbn [source cell_7890a077 cell_e3d4526f].
  split; run_script.
Qed.

Lemma call_cells_call_bound_client_witness :
  let client := VObj (GPT4All plain_library) [] gpt4all_fields in
  let st := {| st_globals := [("llm", client)]; st_trace := [] |} in
  lookup "llm" (st_globals st) = Some client /\
  library_class (GPT4All plain_library) = true /\
  run_cell plain_library cell_e3d4526f st
  = (Ok tt, {| st_globals := [("llm", client)];
               st_trace := [OpCall client [VStr moon_lets_think] []] |}).
Proof.
  cbv zeta. split; [reflexivity|]. split; [reflexivity|].
  rewrite (proj2 (call_cells_call_bound_client plain_library
                    {| st_globals := [("llm", VObj (GPT4All plain_library) [] gpt4all_fields)];
                       st_trace := [] |}
                    (GPT4All plain_library) [] gpt4all_fields eq_refl eq_refl)).
  reflexivity.
Defined.

(** X9: cell 915ecd4c depends on no earlier cell.  From any state it imports
    GPT4All, constructs the client with the path of its model file and
    binds [llm] to it; it does not call the client. *)
Theorem gpt4all_cell_self_contained (L : Library) (st : State) :
  run_cell L cell_915ecd4c st
  = play L
      [importing L "langchain.llms" "GPT4All";
       (OpConstruct (GPT4All L) [] gpt4all_fields,
        update "llm" (VObj (GPT4All L) [] gpt4all_fields))]
      (Ok tt) (st_globals st) (st_trace st).
Proof.
  destruct st as [g tr]. cbn [st_globals st_trace].
  unfold run_cell, importing. cbn [source cell_915ecd4c].
  run_script.
Qed.

(** ** The cell that sets the client again *)

(** X10: cell 16759b7c imports nothing.  It raises NameError, leaving the
    state as it was, when [LlamaCpp] is not bound; when [LlamaCpp] is bound
    and [CallbackManager] is not; and when both are bound and
    [StreamingStdOutCallbackHandler] is not: the callee is looked up before
    the arguments, and the manager before the handler. *)
Theorem llm_cell_needs_its_classes (L : Library) (st : State) :
  (lookup "LlamaCpp" (st_globals st) = None ->
   run_cell L cell_16759b7c st = (Raise (NameError "LlamaCpp"), st)) /\
  (forall f, lookup "LlamaCpp" (st_globals st) = Some f ->
   lookup "CallbackManager" (st_globals st) = None ->
   run_cell L cell_16759b7c st = (Raise (NameError "CallbackManager"), st)) /\
  (forall f m, lookup "LlamaCpp" (st_globals st) = Some f ->
   lookup "CallbackManager" (st_globals st) = Some m ->
   lookup "StreamingStdOutCallbackHandler" (st_globals st) = None ->
   run_cell L cell_16759b7c st
   = (Raise (NameError "StreamingStdOutCallbackHandler"), st)).
Proof.
  destruct st as [g tr]. cbn [st_globals st_trace].
  unfold run_cell. cbn [source cell_16759b7c].
  unfold llama_cpp_client, streaming_manager.
  split; [|split]; intros; run_block.
Qed.

Lemma llm_cell_needs_its_classes_witness :
  run_cell plain_library cell_16759b7c initial = (Raise (NameError "LlamaCpp"), initial).
Proof.
  exact (proj1 (llm_cell_needs_its_classes plain_library initial) eq_refl).
Defined.

(** X11: where its three names are bound to classes of the library, cell
    16759b7c builds a new handler, a new manager over the list of that
    handler and then the client, of whatever classes the names are bound
    to, with the seven fields written in the cell; [llm] is bound once the
    client is built and keeps its earlier binding when a constructor
    raises. *)
Theorem llm_cell_uses_bound_classes (L : Library) (st : State) (cl cm ch : PyClass) :
  lookup "LlamaCpp" (st_globals st) = Some (VClass cl) ->
  lookup "CallbackManager" (st_globals st) = Some (VClass cm) ->
  lookup "StreamingStdOutCallbackHandler" (st_globals st) = Some (VClass ch) ->
  library_class cl = true -> library_class cm = true -> library_class ch = true ->
  let fields :=
    [("model_path", VStr llama_cpp_weights); ("n_gpu_layers", VInt 1);
     ("n_batch", VInt 512); ("n_ctx", VInt 2048); ("f16_kv", VBool true);
     ("callback_manager", VObj cm [VList [VObj ch [] []]] []);
     ("verbose", VBool true)] in
  run_cell L cell_16759b7c st
  = play L
      [(OpConstruct ch [] [], keep);
       (OpConstruct cm [VList [VObj ch [] []]] [], keep);
       (OpConstruct cl [] fields, update "llm" (VObj cl [] fields))]
      (Ok tt) (st_globals st) (st_trace st).
Proof.
  destruct st as [g tr]. cbn [st_globals st_trace]. intros Hl Hm Hh Hcl Hcm Hch. cbv zeta.
  unfold run_cell. cbn [source cell_16759b7c].
  unfold llama_cpp_client, streaming_manager.
  run_script.
Qed.

Lemma llm_cell_uses_bound_classes_witness :
  let st := snd (run_cell plain_library cell_a88bf0c8 initial) in
  lookup "LlamaCpp" (st_globals st) = Some (VClass (LlamaCpp plain_library)) /\
  lookup "CallbackManager" (st_globals st) = Some (VClass (CallbackManager plain_library)) /\
  lookup "StreamingStdOutCallbackHandler" (st_globals st)
  = Some (VClass (StreamingStdOutCallbackHandler plain_library)) /\
  fst (run_cell plain_library cell_16759b7c st) = Ok tt /\
  lookup "llm" (st_globals (snd (run_cell plain_library cell_16759b7c st)))
  = Some (llama_cpp plain_library).
Proof.
  cbv zeta.
  assert (H1 : lookup "LlamaCpp"
                 (st_globals (snd (run_cell plain_library cell_a88bf0c8 initial)))
               = Some (VClass (LlamaCpp plain_library))) by (vm_compute; reflexivity).
  assert (H2 : lookup "CallbackManager"
                 (st_globals (snd (run_cell plain_library cell_a88bf0c8 initial)))
               = Some (VClass (CallbackManager plain_library))) by (vm_compute; reflexivity).
  assert (H3 : lookup "StreamingStdOutCallbackHandler"
                 (st_globals (snd (run_cell plain_library cell_a88bf0c8 initial)))
               = Some (VClass (StreamingStdOutCallbackHandler plain_library)))
    by (vm_compute; reflexivity).
  split; [exact H1|]. split; [exact H2|]. split; [exact H3|].
  rewrite (llm_cell_uses_bound_classes plain_library _ _ _ _ H1 H2 H3
             eq_refl eq_refl eq_refl).
  split; vm_compute; reflexivity.
Defined.

(** ** The prompt-selection cell *)

(** X13: cell 8555f5bf imports what it constructs but not its client.  Run
    where [llm] is not bound, it makes its three imports, builds the two
    templates and the selector, binding each, and then raises NameError for
    [llm]: the selector is not called and [prompt] is not bound. *)
Theorem selection_cell_needs_llm (L : Library) (st : State) :
  lookup "llm" (st_globals st) = None ->
  run_cell L cell_8555f5bf st
  = play L (selection_script L) (Raise (NameError "llm")) (st_globals st) (st_trace st).
Proof.
  destruct st as [g tr]. cbn [st_globals st_trace]. intros H.
  unfold run_cell, selection_script, importing. cbn [source cell_8555f5bf].
  unfold select_for_llm.
  run_script.
Qed.

Lemma selection_cell_needs_llm_witness :
  lookup "llm" (st_globals initial) = None /\
  fst (run_cell plain_library cell_8555f5bf initial) = Raise (NameError "llm") /\
  st_trace (snd (run_cell plain_library cell_8555f5bf initial))
  = selection_operations plain_library.
Proof.
  split; [reflexivity|].
  rewrite (selection_cell_needs_llm plain_library initial eq_refl).
  split; vm_compute; reflexivity.
Defined.



(** ** The chain cell *)

(** X15: cell d0aedfd2 imports and defines nothing it uses.  It raises
    NameError, leaving the state as it was, when [LLMChain] is not bound;
    when [LLMChain] is bound and [prompt] is not; and when both are bound
    and [llm] is not. *)
Theorem chain_cell_needs_earlier_cells (L : Library) (st : State) :
  (lookup "LLMChain" (st_globals st) = None ->
   run_cell L cell_d0aedfd2 st = (Raise (NameError "LLMChain"), st)) /\
  (forall f, lookup "LLMChain" (st_globals st) = Some f ->
   lookup "prompt" (st_globals st) = None ->
   run_cell L cell_d0aedfd2 st = (Raise (NameError "prompt"), st)) /\
  (forall f p, lookup "LLMChain" (st_globals st) = Some f ->
   lookup "prompt" (st_globals st) = Some p ->
   lookup "llm" (st_globals st) = None ->
   run_cell L cell_d0aedfd2 st = (Raise (NameError "llm"), st)).
Proof.
  destruct st as [g tr]. cbn [st_globals st_trace].
  unfold run_cell. cbn [source cell_d0aedfd2].
  split; [|split]; intros; run_block.
Qed.

Lemma chain_cell_needs_earlier_cells_witness :
  run_cell plain_library cell_d0aedfd2 initial = (Raise (NameError "LLMChain"), initial).
Proof.
  exact (proj1 (chain_cell_needs_earlier_cells plain_library initial) eq_refl).
Defined.

(** X16: where [LLMChain] is bound to a class of the library, cell d0aedfd2
    constructs the chain over whatever [prompt] and [llm] are bound to when
    it runs, passed as they are, binds [llm_chain] and [question], and calls
    the method run of that chain with the dict that maps "question" to the
    question; it calls neither the prompt nor the client itself. *)
Theorem chain_cell_wires_current_bindings (L : Library) (st : State) (c : PyClass)
    (p v : Value) :
  lookup "LLMChain" (st_globals st) = Some (VClass c) ->
  lookup "prompt" (st_globals st) = Some p ->
  lookup "llm" (st_globals st) = Some v ->
  library_class c = true ->
  let chain := VObj c [] [("prompt", p); ("llm", v)] in
  run_cell L cell_d0aedfd2 st
  = play L
      [(OpConstruct c [] [("prompt", p); ("llm", v)],
        fun g => update "question" (VStr bieber) (update "llm_chain" chain g));
       (OpMethod chain "run" [VDict [(VStr "question", VStr bieber)]] [], keep)]
      (Ok tt) (st_globals st) (st_trace st).
Proof.
  destruct st as [g tr]. cbn [st_globals st_trace]. intros Hc Hp Hv Hl. cbv zeta.
  unfold run_cell. cbn [source cell_d0aedfd2].
  run_script.
Qed.

Lemma chain_cell_wires_current_bindings_witness :
  let client := VObj (GPT4All plain_library) [] gpt4all_fields in
  let st := {| st_globals := [("LLMChain", VClass (LLMChain plain_library));
                              ("prompt", DEFAULT_SEARCH_PROMPT plain_library);
                              ("llm", client)];
               st_trace := [] |} in
  let fields := [("prompt", DEFAULT_SEARCH_PROMPT plain_library); ("llm", client)] in
  st_trace (snd (run_cell plain_library cell_d0aedfd2 st))
  = [OpConstruct (LLMChain plain_library) [] fields;
     OpMethod (VObj (LLMChain plain_library) [] fields) "run"
       [VDict [(VStr "question", VStr bieber)]] []].
Proof.
  cbv zeta.
  rewrite (chain_cell_wires_current_bindings plain_library
             {| st_globals := [("LLMChain", VClass (LLMChain plain_library));
                               ("prompt", DEFAULT_SEARCH_PROMPT plain_library);
                               ("llm", VObj (GPT4All plain_library) [] gpt4all_fields)];
                st_trace := [] |}
             (LLMChain plain_library) (DEFAULT_SEARCH_PROMPT plain_library)
             (VObj (GPT4All plain_library) [] gpt4all_fields)
             eq_refl eq_refl eq_refl eq_refl).
  reflexivity.
Defined.
